(** * Simple Notes backend: repository, schemas and router over a SQLite table

    A shallow embedding of [src/api/db.py], [src/api/schemas.py],
    [src/api/repository.py] and [src/api/routers/notes.py].

    - A Python [str] is a [string]; one [ascii] stands for one character.
      SQLite compares TEXT values bytewise (BINARY collation), which is
      [String.compare].
    - A Python [int] and a SQLite rowid are both a [Z]. An [int] that a
      caller passes reaches the engine as a statement parameter only if it
      is a signed 64-bit number; otherwise the driver raises
      [OverflowError]. The engine itself never runs out of rowids here.
    - The [notes] table created by [init_db] is a finite map from rowid to
      the four remaining columns, together with the AUTOINCREMENT counter
      that SQLite keeps in [sqlite_sequence].
    - A repository function is a computation over the database file that
      either returns a value or raises; the file it leaves behind is part of
      the outcome in both cases.
    - [utc_now_iso()] reads the wall clock; the value it returns during a call
      is the argument [now] of the embedded function. How the string comes
      out of the reading is [utc_now_iso] below, a function of the reading.
    - [get_db_path()] reads the environment and the working directory; both
      are arguments of the embedded function. *)

From Stdlib Require Import ZArith String Ascii List Sorted Permutation.
From Stdlib Require Import OrderedTypeEx.
From stdpp Require Import base gmap strings list sorting fin_maps.

Local Open Scope string_scope.
Local Open Scope Z_scope.

(** ** Exceptions and the state-and-exception monad *)

Inductive exn : Type :=
| ValidationError   (* raised by a pydantic model constructor *)
| AssertionError    (* raised by a failing [assert] *)
| OverflowError.    (* raised by the driver: "Python int too large to
                       convert to SQLite INTEGER" *)

Inductive result (A : Type) : Type :=
| Ok (a : A)
| Raise (e : exn).
Arguments Ok {A} a.
Arguments Raise {A} e.

Definition is_ok {A} (r : result A) : bool :=
  match r with Ok _ => true | Raise _ => false end.

(** A computation over a state [S]: the outcome and the state left behind. *)
Definition M (S A : Type) : Type := S -> result A * S.

Definition ret {S A} (a : A) : M S A := fun s => (Ok a, s).

Definition raise {S A} (e : exn) : M S A := fun s => (Raise e, s).

Definition bind {S A B} (c : M S A) (k : A -> M S B) : M S B :=
  fun s =>
    match c s with
    | (Ok a, s') => k a s'
    | (Raise e, s') => (Raise e, s')
    end.

Definition lift {S A} (r : result A) : M S A := fun s => (r, s).

Notation "x <- c ;; k" := (bind c (fun x => k))
  (at level 100, c at next level, right associativity).
Notation "c ;;; k" := (bind c (fun _ => k))
  (at level 100, right associativity).

(** [[f(x) for x in xs]] with a fallible [f]: the first exception escapes. *)
Fixpoint mapM {S A B} (f : A -> M S B) (xs : list A) : M S (list B) :=
  match xs with
  | [] => ret []
  | x :: xs' => y <- f x ;; ys <- mapM f xs' ;; ret (y :: ys)
  end.

(** ** schemas.py *)

(** [Field(..., min_length=1, max_length=200)] on [title]. *)
Definition title_ok (t : string) : bool :=
  (1 <=? String.length t)%nat && (String.length t <=? 200)%nat.

(** [Field(..., min_length=0)] on [content]. *)
Definition content_ok (c : string) : bool := (0 <=? String.length c)%nat.

(** [NoteCreate(NoteBase)]. *)
Record NoteCreate : Type := mkNoteCreate {
  nc_title : string;
  nc_content : string
}.

(** [NoteUpdate]: both fields [Optional[str]], default [None]. *)
Record NoteUpdate : Type := mkNoteUpdate {
  nu_title : option string;
  nu_content : option string
}.

(** [NoteRead(NoteBase)]: the two inherited fields plus three of its own. *)
Record NoteRead : Type := mkNoteRead {
  id : Z;
  title : string;
  content : string;
  created_at : string;
  updated_at : string
}.

#[global] Instance NoteRead_eq_dec : EqDecision NoteRead.
Proof. solve_decision. Defined.

(** What the constructors of the three models check. *)
Definition NoteCreate_valid (p : NoteCreate) : bool :=
  title_ok (nc_title p) && content_ok (nc_content p).

Definition NoteUpdate_valid (p : NoteUpdate) : bool :=
  match nu_title p with Some t => title_ok t | None => true end
  && match nu_content p with Some c => content_ok c | None => true end.

(** [NoteRead(id=..., title=..., ...)]: [title] and [content] carry the
    constraints of [NoteBase]; the other fields are unconstrained. *)
Definition new_NoteRead (i : Z) (t c ca ua : string) : result NoteRead :=
  if title_ok t && content_ok c
  then Ok (mkNoteRead i t c ca ua)
  else Raise ValidationError.

(** A request body as it arrives: a field is absent or holds a string. *)
Record RawBody : Type := mkRawBody {
  raw_title : option string;
  raw_content : option string
}.

(** Parsing a body into [NoteCreate]: both fields are required ([...]). *)
Definition parse_NoteCreate (raw : RawBody) : result NoteCreate :=
  match raw_title raw, raw_content raw with
  | Some t, Some c =>
      if title_ok t && content_ok c then Ok (mkNoteCreate t c)
      else Raise ValidationError
  | _, _ => Raise ValidationError
  end.

(** Parsing a body into [NoteUpdate]: both fields default to [None]. *)
Definition parse_NoteUpdate (raw : RawBody) : result NoteUpdate :=
  let p := mkNoteUpdate (raw_title raw) (raw_content raw) in
  if NoteUpdate_valid p then Ok p else Raise ValidationError.

(** ** db.py: the SQLite file *)

(** The columns of a [notes] row other than the key. *)
Record Cols : Type := mkCols {
  col_title : string;
  col_content : string;
  col_created_at : string;
  col_updated_at : string
}.

#[global] Instance Cols_eq_dec : EqDecision Cols.
Proof. solve_decision. Defined.

(** The database file after [init_db]: the rows of [notes] by [id], and the
    largest rowid handed out so far ([sqlite_sequence]). *)
Record Database : Type := mkDatabase {
  notes : gmap Z Cols;
  sqlite_sequence : Z
}.

Definition empty_db : Database := mkDatabase ∅ 0.

(** A connection: what is on disk and what this connection sees, the two
    differing by the statements executed since the last commit. *)
Record Connection : Type := mkConnection {
  committed : Database;
  pending : Database
}.

(** [with get_connection() as conn: body]: connect, run the body, and close
    on every exit path; closing discards what was not committed. *)
Definition get_connection {A} (body : M Connection A) : M Database A :=
  fun db =>
    let '(r, conn) := body (mkConnection db db) in
    (r, committed conn).

(** [conn.commit()]. *)
Definition commit : M Connection unit :=
  fun conn => (Ok tt, mkConnection (pending conn) (pending conn)).

(** A fetched row: [row["id"]] and the other columns. *)
Definition row_id (r : Z * Cols) : Z := fst r.
Definition row_cols (r : Z * Cols) : Cols := snd r.

(** [ORDER BY updated_at DESC, id DESC]: [a] is not after [b]. *)
Definition order_by (a b : Z * Cols) : bool :=
  match String.compare (col_updated_at (row_cols a)) (col_updated_at (row_cols b)) with
  | Gt => true
  | Lt => false
  | Eq => row_id b <=? row_id a
  end.

Definition order_by_rel (a b : Z * Cols) : Prop := order_by a b = true.

#[global] Instance order_by_rel_dec a b : Decision (order_by_rel a b).
Proof. unfold order_by_rel. apply _. Defined.

(** [SELECT ... FROM notes ORDER BY updated_at DESC, id DESC] + [fetchall()]. *)
Definition select_all_ordered : M Connection (list (Z * Cols)) :=
  fun conn =>
    (Ok (merge_sort order_by_rel (map_to_list (notes (pending conn)))), conn).

(** SQLite's INTEGER is a signed 64-bit number. *)
Definition INT64_MIN : Z := -9223372036854775808.
Definition INT64_MAX : Z := 9223372036854775807.

Definition int64_ok (z : Z) : bool := (INT64_MIN <=? z) && (z <=? INT64_MAX).
Arguments int64_ok : simpl never.

(** Whether the driver can hand the Python [int] [z] to the engine. It can
    when [z] is a 64-bit number. The rowids of this model are not capped
    (see [next_rowid]), so a rowid that the table holds is accepted as well;
    in a file of SQLite every rowid is a 64-bit number and that case adds
    nothing. *)
Definition fits_integer (db : Database) (z : Z) : bool :=
  int64_ok z || bool_decide (is_Some (notes db !! z)).

(** Binding the Python [int] [z] to a [?] of a statement, which
    [conn.execute] does before the statement runs. *)
Definition bind_parameter (z : Z) : M Connection unit :=
  fun conn =>
    if fits_integer (pending conn) z then (Ok tt, conn)
    else (Raise OverflowError, conn).

(** [SELECT ... FROM notes WHERE id = ?] + [fetchone()]. *)
Definition select_by_id (note_id : Z) : M Connection (option (Z * Cols)) :=
  bind_parameter note_id ;;;
  fun conn =>
    (Ok (match notes (pending conn) !! note_id with
         | Some c => Some (note_id, c)
         | None => None
         end), conn).

(** The largest rowid in the table, 0 when there is none above it. *)
Definition max_rowid (t : gmap Z Cols) : Z :=
  foldr Z.max 0 (map_to_list t).*1.

(** AUTOINCREMENT: one more than the largest rowid that ever existed. *)
Definition next_rowid (db : Database) : Z :=
  1 + Z.max (sqlite_sequence db) (max_rowid (notes db)).

(** [INSERT INTO notes (title, content, created_at, updated_at) VALUES ...];
    the value is [cur.lastrowid]. *)
Definition insert_note (t c ca ua : string) : M Connection Z :=
  fun conn =>
    let db := pending conn in
    let rid := next_rowid db in
    (Ok rid,
     mkConnection (committed conn)
       (mkDatabase (<[rid := mkCols t c ca ua]> (notes db)) rid)).

(** [UPDATE notes SET title = ?, content = ?, updated_at = ? WHERE id = ?];
    the value is [cur.rowcount]. *)
Definition update_stmt (t c ua : string) (note_id : Z) : M Connection Z :=
  bind_parameter note_id ;;;
  fun conn =>
    let db := pending conn in
    match notes db !! note_id with
    | Some old =>
        (Ok 1,
         mkConnection (committed conn)
           (mkDatabase
              (<[note_id := mkCols t c (col_created_at old) ua]> (notes db))
              (sqlite_sequence db)))
    | None => (Ok 0, conn)
    end.

(** [DELETE FROM notes WHERE id = ?]; the value is [cur.rowcount]. *)
Definition delete_stmt (note_id : Z) : M Connection Z :=
  bind_parameter note_id ;;;
  fun conn =>
    let db := pending conn in
    match notes db !! note_id with
    | Some _ =>
        (Ok 1,
         mkConnection (committed conn)
           (mkDatabase (delete note_id (notes db)) (sqlite_sequence db)))
    | None => (Ok 0, conn)
    end.

(** ** repository.py *)

Definition _row_to_note {S} (row : Z * Cols) : M S NoteRead :=
  lift (new_NoteRead (row_id row)
          (col_title (row_cols row))
          (col_content (row_cols row))
          (col_created_at (row_cols row))
          (col_updated_at (row_cols row))).

Definition list_notes : M Database (list NoteRead) :=
  get_connection (
    rows <- select_all_ordered ;;
    mapM _row_to_note rows).

Definition get_note (note_id : Z) : M Database (option NoteRead) :=
  get_connection (
    row <- select_by_id note_id ;;
    match row with
    | Some r => n <- _row_to_note r ;; ret (Some n)
    | None => ret None
    end).

(** [assert x is not None]. *)
Definition assert_not_None {S A} (x : option A) : M S A :=
  match x with
  | Some a => ret a
  | None => raise AssertionError
  end.

Definition create_note (payload : NoteCreate) (now : string) : M Database NoteRead :=
  note_id <- get_connection (
    rid <- insert_note (nc_title payload) (nc_content payload) now now ;;
    commit ;;;
    ret rid) ;;
  created <- get_note note_id ;;
  assert_not_None created.

Definition update_note (note_id : Z) (payload : NoteUpdate) (now : string)
  : M Database (option NoteRead) :=
  existing <- get_note note_id ;;
  match existing with
  | None => ret None
  | Some existing =>
      let new_title :=
        match nu_title payload with Some t => t | None => title existing end in
      let new_content :=
        match nu_content payload with Some c => c | None => content existing end in
      get_connection (
        update_stmt new_title new_content now note_id ;;;
        commit) ;;;
      updated <- get_note note_id ;;
      u <- assert_not_None updated ;;
      ret (Some u)
  end.

Definition delete_note (note_id : Z) : M Database bool :=
  get_connection (
    rowcount <- delete_stmt note_id ;;
    commit ;;;
    ret (0 <? rowcount)).

(** ** routers/notes.py *)

Inductive Body : Type :=
| NoteBody (n : NoteRead)            (* [response_model=NoteRead] *)
| NotesList (items : list NoteRead)  (* [response_model=NotesList] *)
| Detail (detail : string)           (* the body of an [HTTPException] *)
| NoBody.

Record Response : Type := mkResponse {
  status_code : Z;
  body : Body
}.

Definition HTTP_200_OK := 200.
Definition HTTP_201_CREATED := 201.
Definition HTTP_204_NO_CONTENT := 204.
Definition HTTP_404_NOT_FOUND := 404.
Definition HTTP_422_UNPROCESSABLE := 422.

Definition not_found : Response :=
  mkResponse HTTP_404_NOT_FOUND (Detail "Note not found").

(** The framework answers a body that does not parse into the handler's
    payload model by itself, and the handler is not called. *)
Definition unprocessable : Response :=
  mkResponse HTTP_422_UNPROCESSABLE (Detail "validation error").

Definition list_notes_route : M Database Response :=
  items <- list_notes ;;
  ret (mkResponse HTTP_200_OK (NotesList items)).

Definition create_note_route (raw : RawBody) (now : string) : M Database Response :=
  match parse_NoteCreate raw with
  | Raise _ => ret unprocessable
  | Ok payload =>
      n <- create_note payload now ;;
      ret (mkResponse HTTP_201_CREATED (NoteBody n))
  end.

Definition get_note_route (note_id : Z) : M Database Response :=
  note <- get_note note_id ;;
  match note with
  | None => ret not_found
  | Some n => ret (mkResponse HTTP_200_OK (NoteBody n))
  end.

Definition update_note_route (note_id : Z) (raw : RawBody) (now : string)
  : M Database Response :=
  match parse_NoteUpdate raw with
  | Raise _ => ret unprocessable
  | Ok payload =>
      updated <- update_note note_id payload now ;;
      match updated with
      | None => ret not_found
      | Some n => ret (mkResponse HTTP_200_OK (NoteBody n))
      end
  end.

Definition delete_note_route (note_id : Z) : M Database Response :=
  ok <- delete_note note_id ;;
  if negb ok then ret not_found
  else ret (mkResponse HTTP_204_NO_CONTENT NoBody).

(** The five routes of the router. *)
Inductive Request : Type :=
| GET_notes
| POST_notes (raw : RawBody)
| GET_note (note_id : Z)
| PUT_note (note_id : Z) (raw : RawBody)
| DELETE_note (note_id : Z).

Definition handle (rq : Request) (now : string) : M Database Response :=
  match rq with
  | GET_notes => list_notes_route
  | POST_notes raw => create_note_route raw now
  | GET_note note_id => get_note_route note_id
  | PUT_note note_id raw => update_note_route note_id raw now
  | DELETE_note note_id => delete_note_route note_id
  end.

(** Whether the id in the path of a request, if it has one, is a signed
    64-bit number. *)
Definition request_id_ok (rq : Request) : bool :=
  match rq with
  | GET_note note_id | PUT_note note_id _ | DELETE_note note_id =>
      int64_ok note_id
  | GET_notes | POST_notes _ => true
  end.

(** ** Histories of the store *)

(** [str_le a b]: [a] sorts no later than [b] as text. *)
Definition str_le (a b : string) : Prop := String.leb a b = true.

(** The database files that a run of the service can leave behind, with the
    latest clock reading of the run. Each reading is no earlier than the one
    before it. *)
Inductive reachable : string -> Database -> Prop :=
| reach_init t0 :
    reachable t0 empty_db
| reach_create t db now payload :
    reachable t db -> str_le t now ->
    reachable now (snd (create_note payload now db))
| reach_update t db now note_id payload :
    reachable t db -> str_le t now ->
    reachable now (snd (update_note note_id payload now db))
| reach_delete t db note_id :
    reachable t db ->
    reachable t (snd (delete_note note_id db))
| reach_get t db note_id :
    reachable t db ->
    reachable t (snd (get_note note_id db))
| reach_list t db :
    reachable t db ->
    reachable t (snd (list_notes db)).

(** The database files that the service leaves behind when the router is
    the only writer, starting from the empty table. *)
Inductive served : Database -> Prop :=
| served_init : served empty_db
| served_request db rq now :
    served db -> served (snd (handle rq now db)).

(** Every stored title passes the check of [NoteBase]. *)
Definition titles_valid (db : Database) : Prop :=
  map_Forall (fun _ c => title_ok (col_title c) = true) (notes db).

#[global] Instance titles_valid_dec db : Decision (titles_valid db).
Proof. unfold titles_valid. apply _. Defined.

(** Every stored row was created no later than it was last updated, and
    last updated no later than [t]. *)
Definition stamps_ordered (t : string) (db : Database) : Prop :=
  map_Forall (fun _ c => str_le (col_created_at c) (col_updated_at c)
                         /\ str_le (col_updated_at c) t) (notes db).

(** The note that a stored row reads back as. *)
Definition note_of_row (r : Z * Cols) : NoteRead :=
  mkNoteRead (row_id r) (col_title (row_cols r)) (col_content (row_cols r))
    (col_created_at (row_cols r)) (col_updated_at (row_cols r)).

(** [a] comes strictly before [b] under [updated_at DESC, id DESC]. *)
Definition listed_before (a b : NoteRead) : Prop :=
  String.ltb (updated_at b) (updated_at a) = true
  \/ (updated_at a = updated_at b /\ id b < id a).

(** ** The create-payload rule in the words of the specification *)

(** Space, tab, line feed, vertical tab, form feed, carriage return. *)
Definition is_space (c : ascii) : bool :=
  let n := nat_of_ascii c in
  ((n =? 32) || ((9 <=? n) && (n <=? 13)))%nat.

Fixpoint lstrip (s : string) : string :=
  match s with
  | EmptyString => EmptyString
  | String c s' => if is_space c then lstrip s' else s
  end.

Fixpoint rstrip (s : string) : string :=
  match s with
  | EmptyString => EmptyString
  | String c s' =>
      match rstrip s' with
      | EmptyString => if is_space c then EmptyString else String c EmptyString
      | r => String c r
      end
  end.

(** Trimming of surrounding whitespace. *)
Definition strip (s : string) : string := rstrip (lstrip s).

(** "title required, trimmed length 1-200; content required, may be empty". *)
Definition spec_create_accepts (raw : RawBody) : bool :=
  match raw_title raw, raw_content raw with
  | Some t, Some _ => title_ok (strip t)
  | _, _ => false
  end.

(** ** db.py: the clock *)

(** An aware UTC [datetime], as [datetime.now(timezone.utc)] returns it. *)
Record datetime : Type := mkDatetime {
  dt_year : N;
  dt_month : N;
  dt_day : N;
  dt_hour : N;
  dt_minute : N;
  dt_second : N;
  dt_microsecond : N
}.

(** The ranges that a [datetime] object keeps its fields in. *)
Definition datetime_ok (d : datetime) : bool :=
  ((1 <=? dt_year d) && (dt_year d <=? 9999)
   && (1 <=? dt_month d) && (dt_month d <=? 12)
   && (1 <=? dt_day d) && (dt_day d <=? 31)
   && (dt_hour d <=? 23) && (dt_minute d <=? 59) && (dt_second d <=? 59)
   && (dt_microsecond d <=? 999999))%N.

(** [d.replace(microsecond=us)]. *)
Definition replace_microsecond (d : datetime) (us : N) : datetime :=
  mkDatetime (dt_year d) (dt_month d) (dt_day d)
    (dt_hour d) (dt_minute d) (dt_second d) us.

Definition digit (n : N) : ascii := ascii_of_N (48 + n).

(** [%02d], [%04d] and [%06d] on numbers of at most that many digits. *)
Definition pad2 (n : N) : string :=
  String (digit (n / 10)%N) (String (digit (n mod 10)%N) EmptyString).
Definition pad4 (n : N) : string :=
  (pad2 (n / 100)%N ++ pad2 (n mod 100)%N)%string.
Definition pad6 (n : N) : string :=
  (pad2 (n / 10000)%N ++ pad4 (n mod 10000)%N)%string.

(** [d.isoformat()] of an aware UTC datetime: the fraction of a second is
    printed only when it is not zero, the offset always. *)
Definition isoformat (d : datetime) : string :=
  (pad4 (dt_year d) ++ "-" ++ pad2 (dt_month d) ++ "-" ++ pad2 (dt_day d)
   ++ "T" ++ pad2 (dt_hour d) ++ ":" ++ pad2 (dt_minute d)
   ++ ":" ++ pad2 (dt_second d)
   ++ (if (dt_microsecond d =? 0)%N then ""
       else "." ++ pad6 (dt_microsecond d))
   ++ "+00:00")%string.

(** [_utc_now_iso()], with [clock] the value of [datetime.now(timezone.utc)]. *)
Definition _utc_now_iso (clock : datetime) : string :=
  isoformat (replace_microsecond clock 0).

Definition utc_now_iso (clock : datetime) : string := _utc_now_iso clock.

(** Which of two comparisons decides: the first unless it is [Eq]. *)
Definition lex (c1 c2 : comparison) : comparison :=
  match c1 with Eq => c2 | _ => c1 end.

(** The order of two readings in time, to the second. *)
Definition compare_seconds (d1 d2 : datetime) : comparison :=
  lex (dt_year d1 ?= dt_year d2)%N
 (lex (dt_month d1 ?= dt_month d2)%N
 (lex (dt_day d1 ?= dt_day d2)%N
 (lex (dt_hour d1 ?= dt_hour d2)%N
 (lex (dt_minute d1 ?= dt_minute d2)%N
      (dt_second d1 ?= dt_second d2)%N)))).

(** The order of two readings in time: [d1 < d2], [d1 == d2], [d1 > d2]. *)
Definition datetime_compare (d1 d2 : datetime) : comparison :=
  lex (compare_seconds d1 d2) (dt_microsecond d1 ?= dt_microsecond d2)%N.

(** ** db.py: the file location *)

Definition sep : ascii := "/"%char.

Fixpoint endswith_sep (s : string) : bool :=
  match s with
  | EmptyString => false
  | String c EmptyString => Ascii.eqb c sep
  | String _ s' => endswith_sep s'
  end.

(** [os.path.join(a, b)] on a POSIX system. *)
Definition path_join (a b : string) : string :=
  if String.prefix "/" b then b
  else if String.eqb a "" || endswith_sep a then (a ++ b)%string
  else (a ++ "/" ++ b)%string.

(** [get_db_path()], with [SQLITE_DB] the value of [os.getenv("SQLITE_DB")]
    and [cwd] that of [os.getcwd()]. *)
Definition get_db_path (SQLITE_DB : option string) (cwd : string) : string :=
  match SQLITE_DB with
  | Some env_path =>
      if negb (String.eqb env_path "") then env_path
      else path_join cwd "notes.db"
  | None => path_join cwd "notes.db"
  end.

(** ** Calls of the repository, one after another *)

Inductive Call : Type :=
| Call_list_notes
| Call_get_note (note_id : Z)
| Call_create_note (payload : NoteCreate) (now : string)
| Call_update_note (note_id : Z) (payload : NoteUpdate) (now : string)
| Call_delete_note (note_id : Z).

(** The store that a call leaves behind, whether it returns or raises. *)
Definition after_call (c : Call) (db : Database) : Database :=
  match c with
  | Call_list_notes => snd (list_notes db)
  | Call_get_note note_id => snd (get_note note_id db)
  | Call_create_note payload now => snd (create_note payload now db)
  | Call_update_note note_id payload now => snd (update_note note_id payload now db)
  | Call_delete_note note_id => snd (delete_note note_id db)
  end.

(** [evolves db db']: some sequence of calls leads from [db] to [db']. *)
Inductive evolves : Database -> Database -> Prop :=
| evolves_refl db : evolves db db
| evolves_step db db' c : evolves db db' -> evolves db (after_call c db').

(** ** The scenario of the specification, run on the empty store *)

Definition T0 : string := "2024-05-01T10:00:00+00:00".
Definition T1 : string := "2024-05-01T10:00:07+00:00".

Definition db1 : Database := snd (create_note (mkNoteCreate "A" "x") T0 empty_db).
Definition db2 : Database := snd (update_note 1 (mkNoteUpdate None (Some "y")) T1 db1).
Definition db3 : Database := snd (delete_note 1 db2).

(** A file holding one row whose title is empty, as only a writer other
    than this service can leave it. *)
Definition db_unreadable : Database :=
  mkDatabase {[ 1 := mkCols "" "x" T0 T0 ]} 1.

(** Two clock readings, the first one within the second of [T0]. *)
Definition clock0 : datetime := mkDatetime 2024 5 1 10 0 0 123456.
Definition clock1 : datetime := mkDatetime 2024 5 1 10 0 7 0.

(** Three notes, two of them created within the same second. *)
Definition db_three : Database :=
  snd (create_note (mkNoteCreate "C" "z") T1
         (snd (create_note (mkNoteCreate "B" "") T0 db1))).

Example scenario_create :
  fst (create_note (mkNoteCreate "A" "x") T0 empty_db)
  = Ok (mkNoteRead 1 "A" "x" T0 T0).
Proof. vm_compute. reflexivity. Qed.

Example scenario_update :
  fst (update_note 1 (mkNoteUpdate None (Some "y")) T1 db1)
  = Ok (Some (mkNoteRead 1 "A" "y" T0 T1)).
Proof. vm_compute. reflexivity. Qed.

Example scenario_delete :
  fst (delete_note_route 1 db2) = Ok (mkResponse 204 NoBody)
  /\ fst (get_note_route 1 db3) = Ok not_found.
Proof. split; vm_compute; reflexivity. Qed.

Example scenario_list :
  fst (list_notes db_three)
  = Ok [mkNoteRead 3 "C" "z" T1 T1; mkNoteRead 2 "B" "" T0 T0;
        mkNoteRead 1 "A" "x" T0 T0].
Proof. vm_compute. reflexivity. Qed.

Example deleted_id_not_reused :
  fst (create_note (mkNoteCreate "D" "") T1 db3)
  = Ok (mkNoteRead 2 "D" "" T1 T1).
Proof. vm_compute. reflexivity. Qed.

Example utc_now_iso_example :
  utc_now_iso clock0 = T0 /\ utc_now_iso clock1 = T1
  /\ isoformat clock0 = "2024-05-01T10:00:00.123456+00:00".
Proof. repeat split; vm_compute; reflexivity. Qed.

Example get_db_path_example :
  get_db_path (Some "/data/notes.sqlite") "/app" = "/data/notes.sqlite"
  /\ get_db_path None "/app" = "/app/notes.db"
  /\ get_db_path (Some "") "/app/" = "/app/notes.db".
Proof. repeat split; vm_compute; reflexivity. Qed.

Example id_range_example :
  fst (get_note 9223372036854775807 db1) = Ok None
  /\ fst (get_note (-9223372036854775808) db1) = Ok None
  /\ fst (get_note 9223372036854775808 db1) = Raise OverflowError
  /\ fst (get_note (-9223372036854775809) db1) = Raise OverflowError
  /\ fst (get_note_route 9223372036854775808 db1) = Raise OverflowError
  /\ fst (delete_note_route 9223372036854775808 db1) = Raise OverflowError.
Proof. repeat split; vm_compute; reflexivity. Qed.

Example strip_example : strip "  a b  " = "a b" /\ strip "   " = "".
Proof. split; reflexivity. Qed.

(** ** Text order *)

Section TextOrder.

Lemma compare_refl (s : string) : String.compare s s = Eq.
Proof. by apply String_as_OT.cmp_eq. Qed.

Lemma compare_Gt_Lt (a b : string) :
  String.compare a b = Gt <-> String.compare b a = Lt.
Proof.
  rewrite (String.compare_antisym b a).
  destruct (String.compare a b); simpl; split; congruence.
Qed.

Lemma compare_Lt_trans (a b c : string) :
  String.compare a b = Lt -> String.compare b c = Lt ->
  String.compare a c = Lt.
Proof.
  intros Hab Hbc.
  apply String_as_OT.cmp_lt in Hab, Hbc.
  apply String_as_OT.cmp_lt.
  exact (String_as_OT.lt_trans _ _ _ Hab Hbc).
Qed.

Lemma str_le_refl (a : string) : str_le a a.
Proof. unfold str_le, String.leb. by rewrite compare_refl. Qed.

Lemma str_le_trans (a b c : string) : str_le a b -> str_le b c -> str_le a c.
Proof.
  unfold str_le, String.leb. intros Hab Hbc.
  destruct (String.compare a b) eqn:Eab; [|clear Hab|done].
  - apply String.compare_eq_iff in Eab. by subst.
  - destruct (String.compare b c) eqn:Ebc; [|clear Hbc|done].
    + apply String.compare_eq_iff in Ebc. subst. by rewrite Eab.
    + by rewrite (compare_Lt_trans _ _ _ Eab Ebc).
Qed.

#[global] Instance order_by_total : Total order_by_rel.
Proof.
  intros a b. unfold order_by_rel, order_by.
  rewrite (String.compare_antisym (col_updated_at (row_cols a))).
  destruct (String.compare _ _); simpl; auto.
  destruct (Z.leb_spec (row_id b) (row_id a)); auto.
  right. apply Z.leb_le. lia.
Qed.

#[global] Instance order_by_trans : Transitive order_by_rel.
Proof.
  intros a b c. unfold order_by_rel, order_by.
  destruct (String.compare (col_updated_at (row_cols a))
              (col_updated_at (row_cols b))) eqn:Eab; [| done |].
  - apply String.compare_eq_iff in Eab. rewrite Eab.
    destruct (String.compare _ _); [| done..].
    rewrite !Z.leb_le. lia.
  - intros _.
    destruct (String.compare (col_updated_at (row_cols b))
                (col_updated_at (row_cols c))) eqn:Ebc; [| done |].
    + apply String.compare_eq_iff in Ebc. rewrite <- Ebc, Eab. done.
    + intros _. apply compare_Gt_Lt in Eab, Ebc.
      pose proof (compare_Lt_trans _ _ _ Ebc Eab) as Hca.
      apply compare_Gt_Lt in Hca. by rewrite Hca.
Qed.

(** Between rows with different ids the order is strict. *)
Lemma order_by_strict (a b : Z * Cols) :
  row_id a <> row_id b -> order_by_rel a b ->
  listed_before (note_of_row a) (note_of_row b).
Proof.
  unfold order_by_rel, order_by, listed_before, String.ltb. simpl.
  intros Hne.
  destruct (String.compare (col_updated_at (row_cols a))
              (col_updated_at (row_cols b))) eqn:Eab; [| done |].
  - apply String.compare_eq_iff in Eab. rewrite Z.leb_le. intros ?.
    right. split; [done | lia].
  - intros _. left. apply compare_Gt_Lt in Eab. by rewrite Eab.
Qed.

End TextOrder.

(** ** What the repository functions compute *)

Lemma fits_integer_stored (db : Database) (z : Z) (c : Cols) :
  notes db !! z = Some c -> fits_integer db z = true.
Proof.
  intros H. unfold fits_integer. rewrite H.
  rewrite bool_decide_eq_true_2 by (by eexists). apply orb_true_r.
Qed.

Lemma fits_integer_absent (db : Database) (z : Z) :
  notes db !! z = None -> fits_integer db z = int64_ok z.
Proof.
  intros H. unfold fits_integer. rewrite H.
  rewrite bool_decide_eq_false_2 by (by intros [? ?]). apply orb_false_r.
Qed.

Lemma fits_integer_int64 (db : Database) (z : Z) :
  int64_ok z = true -> fits_integer db z = true.
Proof. intros H. unfold fits_integer. by rewrite H. Qed.

Lemma content_ok_true (c : string) : content_ok c = true.
Proof. reflexivity. Qed.

Lemma new_NoteRead_ok (i : Z) (t c ca ua : string) :
  title_ok t = true -> new_NoteRead i t c ca ua = Ok (mkNoteRead i t c ca ua).
Proof. unfold new_NoteRead. intros ->. by rewrite content_ok_true. Qed.

Lemma new_NoteRead_inv (i : Z) (t c ca ua : string) (n : NoteRead) :
  new_NoteRead i t c ca ua = Ok n ->
  title_ok t = true /\ n = mkNoteRead i t c ca ua.
Proof.
  unfold new_NoteRead. rewrite content_ok_true, andb_true_r.
  destruct (title_ok t); [|done]. intros [= <-]. done.
Qed.

(** Reading back: the note comes out of the row under [note_id], if any,
    through the constructor of [NoteRead]; the file is as it was. *)
Lemma get_note_run (note_id : Z) (db : Database) :
  get_note note_id db =
  (match notes db !! note_id with
   | Some c =>
       match new_NoteRead note_id (col_title c) (col_content c)
               (col_created_at c) (col_updated_at c) with
       | Ok n => Ok (Some n)
       | Raise e => Raise e
       end
   | None => if int64_ok note_id then Ok None else Raise OverflowError
   end, db).
Proof.
  unfold get_note, get_connection, select_by_id, bind_parameter, bind,
    _row_to_note, lift, ret.
  cbn [pending committed].
  destruct (notes db !! note_id) as [c|] eqn:Hc.
  - rewrite (fits_integer_stored _ _ _ Hc). cbn [pending]. rewrite Hc. simpl.
    by destruct (new_NoteRead _ _ _ _ _).
  - rewrite (fits_integer_absent _ _ Hc).
    destruct (int64_ok note_id); [|done]. cbn [pending]. by rewrite Hc.
Qed.

Lemma get_note_Some (note_id : Z) (db : Database) (n : NoteRead) :
  fst (get_note note_id db) = Ok (Some n) <->
  exists c, notes db !! note_id = Some c /\ title_ok (col_title c) = true
            /\ n = note_of_row (note_id, c).
Proof.
  rewrite get_note_run. simpl. split.
  - destruct (notes db !! note_id) as [c|];
      [|by destruct (int64_ok note_id)].
    destruct (new_NoteRead _ _ _ _ _) as [m|] eqn:E; [|done].
    intros [= <-]. apply new_NoteRead_inv in E as [? ->]. by exists c.
  - intros (c & -> & Hok & ->). by rewrite new_NoteRead_ok.
Qed.


(** No stored rowid exceeds [max_rowid]. *)
Lemma max_rowid_ge (t : gmap Z Cols) (i : Z) (c : Cols) :
  t !! i = Some c -> i <= max_rowid t.
Proof.
  intros H. apply elem_of_map_to_list in H.
  unfold max_rowid.
  assert (Hin : i ∈ (map_to_list t).*1).
  { apply list_elem_of_fmap. by exists (i, c). }
  clear H. induction Hin as [x l | x y l _ IH]; cbn [foldr]; lia.
Qed.

(** The rowid that an INSERT picks is not in use. *)
Lemma next_rowid_fresh (db : Database) : notes db !! next_rowid db = None.
Proof.
  destruct (notes db !! next_rowid db) as [c|] eqn:E; [|done].
  apply max_rowid_ge in E. unfold next_rowid in E. lia.
Qed.

Lemma create_note_run (payload : NoteCreate) (now : string) (db : Database) :
  create_note payload now db =
  (new_NoteRead (next_rowid db) (nc_title payload) (nc_content payload) now now,
   mkDatabase
     (<[next_rowid db := mkCols (nc_title payload) (nc_content payload) now now]>
        (notes db))
     (next_rowid db)).
Proof.
  unfold create_note, bind at 1. unfold get_connection at 1.
  unfold bind at 1, insert_note, bind at 1, commit, ret at 1. simpl.
  unfold bind at 1. rewrite get_note_run. simpl.
  rewrite lookup_insert_eq. simpl.
  by destruct (new_NoteRead _ _ _ _ _).
Qed.

(** An update of a row that reads back; [nt] and [nc] are the new title and
    content as the function picks them. *)
Lemma update_note_run (note_id : Z) (payload : NoteUpdate) (now : string)
    (db : Database) (c : Cols) :
  notes db !! note_id = Some c ->
  title_ok (col_title c) = true ->
  let nt := match nu_title payload with Some t => t | None => col_title c end in
  let nc := match nu_content payload with Some x => x | None => col_content c end in
  update_note note_id payload now db =
  (match new_NoteRead note_id nt nc (col_created_at c) now with
   | Ok n => Ok (Some n)
   | Raise e => Raise e
   end,
   mkDatabase (<[note_id := mkCols nt nc (col_created_at c) now]> (notes db))
     (sqlite_sequence db)).
Proof.
  intros Hc Hok nt nc.
  unfold update_note, bind at 1. rewrite get_note_run, Hc.
  rewrite (new_NoteRead_ok _ _ _ _ _ Hok). simpl.
  unfold bind at 1, get_connection at 1, bind at 1, update_stmt.
  unfold bind at 1, bind_parameter. cbn [pending].
  rewrite (fits_integer_stored _ _ _ Hc). simpl.
  rewrite Hc. simpl. unfold bind at 1. rewrite get_note_run. simpl.
  rewrite lookup_insert_eq. simpl. fold nt nc.
  by destruct (new_NoteRead _ _ _ _ _).
Qed.

(** An update that finds no readable note leaves after the first read. *)
Lemma update_note_absent (note_id : Z) (payload : NoteUpdate) (now : string)
    (db : Database) :
  notes db !! note_id = None ->
  update_note note_id payload now db =
  (if int64_ok note_id then Ok None else Raise OverflowError, db).
Proof.
  intros Hc. unfold update_note, bind at 1. rewrite get_note_run, Hc.
  by destruct (int64_ok note_id).
Qed.

Lemma update_note_absent_state (note_id : Z) (payload : NoteUpdate)
    (now : string) (db : Database) :
  notes db !! note_id = None ->
  snd (update_note note_id payload now db) = db.
Proof. intros Hc. by rewrite update_note_absent. Qed.

Lemma update_note_unreadable (note_id : Z) (payload : NoteUpdate) (now : string)
    (db : Database) (c : Cols) :
  notes db !! note_id = Some c ->
  title_ok (col_title c) = false ->
  update_note note_id payload now db = (Raise ValidationError, db).
Proof.
  intros Hc Hbad. unfold update_note, bind at 1. rewrite get_note_run, Hc.
  unfold new_NoteRead. rewrite Hbad. done.
Qed.

Lemma delete_note_run (note_id : Z) (db : Database) :
  delete_note note_id db =
  (if fits_integer db note_id
   then Ok (bool_decide (is_Some (notes db !! note_id)))
   else Raise OverflowError,
   mkDatabase (delete note_id (notes db)) (sqlite_sequence db)).
Proof.
  unfold delete_note, delete_stmt, get_connection, bind_parameter, commit, ret.
  unfold bind. cbn [pending committed].
  destruct (notes db !! note_id) as [c|] eqn:E.
  - rewrite (fits_integer_stored _ _ _ E). simpl. by rewrite ?E.
  - rewrite (fits_integer_absent _ _ E), delete_id by done.
    destruct (int64_ok note_id), db; [|done]. simpl.
    simpl in E. by rewrite ?E.
Qed.

(** ** Listing *)

Lemma mapM_row_to_note_state {S} (rows : list (Z * Cols)) (s : S) :
  snd (mapM _row_to_note rows s) = s.
Proof.
  induction rows as [|r rows IH]; [done|].
  cbn [mapM]. unfold bind at 1, _row_to_note at 1, lift.
  destruct (new_NoteRead _ _ _ _ _); [|done].
  unfold bind. specialize IH. destruct (mapM _row_to_note rows s) as [[ys|e] s'];
    simpl in *; by subst.
Qed.

Lemma mapM_row_to_note_ok {S} (rows : list (Z * Cols)) (s : S) :
  Forall (fun r => title_ok (col_title (row_cols r)) = true) rows ->
  mapM _row_to_note rows s = (Ok (note_of_row <$> rows), s).
Proof.
  induction 1 as [|r rows Hr _ IH]; [done|].
  cbn [mapM]. unfold bind at 1, _row_to_note at 1, lift.
  rewrite (new_NoteRead_ok _ _ _ _ _ Hr).
  unfold bind. by rewrite IH.
Qed.

(** Rows with pairwise different ids that are sorted are strictly sorted. *)
Lemma sorted_rows_strict (rows : list (Z * Cols)) :
  NoDup rows.*1 ->
  StronglySorted order_by_rel rows ->
  StronglySorted listed_before (note_of_row <$> rows).
Proof.
  intros Hnd Hs. induction Hs as [|r rows Hs IH Hr]; csimpl; [constructor|].
  apply NoDup_cons in Hnd as [Hr1 Hnd].
  constructor; [by apply IH|].
  apply Forall_fmap. rewrite Forall_forall in Hr |- *. intros r' Hin.
  apply order_by_strict; [|by apply Hr].
  intros Heq. apply Hr1. apply list_elem_of_fmap. by exists r'.
Qed.

Lemma list_notes_run (db : Database) :
  titles_valid db ->
  list_notes db =
  (Ok (note_of_row <$> merge_sort order_by_rel (map_to_list (notes db))), db).
Proof.
  intros Hv. unfold list_notes, get_connection, bind at 1, select_all_ordered.
  simpl. rewrite mapM_row_to_note_ok; [done|].
  rewrite merge_sort_Permutation.
  apply Forall_forall. intros [i c] Hin.
  apply elem_of_map_to_list in Hin. exact (Hv i c Hin).
Qed.

(** ** What the writes keep *)

Lemma titles_valid_empty : titles_valid empty_db.
Proof. apply map_Forall_empty. Qed.

Lemma titles_valid_create (payload : NoteCreate) (now : string) (db : Database) :
  NoteCreate_valid payload = true -> titles_valid db ->
  titles_valid (snd (create_note payload now db)).
Proof.
  intros Hp Hv. rewrite create_note_run. unfold titles_valid. simpl.
  apply map_Forall_insert_2; [|done].
  simpl. unfold NoteCreate_valid in Hp. by apply andb_true_iff in Hp as [? _].
Qed.

Lemma titles_valid_update (note_id : Z) (payload : NoteUpdate) (now : string)
    (db : Database) :
  NoteUpdate_valid payload = true -> titles_valid db ->
  titles_valid (snd (update_note note_id payload now db)).
Proof.
  intros Hp Hv. destruct (notes db !! note_id) as [c|] eqn:Hc.
  - pose proof (Hv _ _ Hc) as Hok. simpl in Hok.
    rewrite (update_note_run _ payload now _ _ Hc Hok).
    unfold titles_valid. simpl. apply map_Forall_insert_2; [|done]. simpl.
    unfold NoteUpdate_valid in Hp. apply andb_true_iff in Hp as [Ht _].
    by destruct (nu_title payload).
  - by rewrite update_note_absent_state.
Qed.

Lemma titles_valid_delete (note_id : Z) (db : Database) :
  titles_valid db -> titles_valid (snd (delete_note note_id db)).
Proof.
  intros Hv. rewrite delete_note_run. unfold titles_valid. simpl.
  by apply map_Forall_delete.
Qed.

Lemma stamps_ordered_mono (t t' : string) (db : Database) :
  str_le t t' -> stamps_ordered t db -> stamps_ordered t' db.
Proof.
  intros Htt H i c Hc. destruct (H i c Hc) as [H1 H2].
  split; [done|]. by eapply str_le_trans.
Qed.

Lemma stamps_ordered_create (t now : string) (payload : NoteCreate)
    (db : Database) :
  str_le t now -> stamps_ordered t db ->
  stamps_ordered now (snd (create_note payload now db)).
Proof.
  intros Htt H. rewrite create_note_run. unfold stamps_ordered. simpl.
  apply map_Forall_insert_2.
  - simpl. split; apply str_le_refl.
  - by apply (stamps_ordered_mono t).
Qed.

Lemma stamps_ordered_update (t now : string) (note_id : Z)
    (payload : NoteUpdate) (db : Database) :
  str_le t now -> stamps_ordered t db ->
  stamps_ordered now (snd (update_note note_id payload now db)).
Proof.
  intros Htt H. destruct (notes db !! note_id) as [c|] eqn:Hc.
  - destruct (title_ok (col_title c)) eqn:Hok.
    + rewrite (update_note_run _ payload now _ _ Hc Hok).
      unfold stamps_ordered. simpl. apply map_Forall_insert_2.
      * simpl. destruct (H _ _ Hc) as [H1 H2]. split; [|apply str_le_refl].
        eapply str_le_trans; [exact H1|]. by eapply str_le_trans.
      * by apply (stamps_ordered_mono t).
    + rewrite (update_note_unreadable _ _ _ _ _ Hc Hok). simpl.
      by apply (stamps_ordered_mono t).
  - rewrite update_note_absent_state by done. by apply (stamps_ordered_mono t).
Qed.

Lemma stamps_ordered_delete (t : string) (note_id : Z) (db : Database) :
  stamps_ordered t db -> stamps_ordered t (snd (delete_note note_id db)).
Proof.
  intros H. rewrite delete_note_run. unfold stamps_ordered. simpl.
  by apply map_Forall_delete.
Qed.

Lemma get_note_state (note_id : Z) (db : Database) :
  snd (get_note note_id db) = db.
Proof. by rewrite get_note_run. Qed.

Lemma list_notes_state (db : Database) : snd (list_notes db) = db.
Proof.
  unfold list_notes, get_connection, bind at 1, select_all_ordered. simpl.
  pose proof (mapM_row_to_note_state
                (merge_sort order_by_rel (map_to_list (notes db)))
                (mkConnection db db)) as H.
  destruct (mapM _ _ _) as [r conn]. simpl in *. by subst.
Qed.

Lemma reachable_stamps_ordered (t : string) (db : Database) :
  reachable t db -> stamps_ordered t db.
Proof.
  induction 1 as [t0 | t db now p _ IH Hle | t db now i p _ IH Hle
                 | t db i _ IH | t db i _ IH | t db _ IH].
  - apply map_Forall_empty.
  - by apply (stamps_ordered_create t).
  - by apply (stamps_ordered_update t).
  - by apply stamps_ordered_delete.
  - by rewrite get_note_state.
  - by rewrite list_notes_state.
Qed.

(** ** The stores that the router produces *)

Lemma bind_state {S A B} (c : M S A) (k : A -> M S B) (s : S) :
  (forall a s', snd (k a s') = s') ->
  snd (bind c k s) = snd (c s).
Proof.
  intros Hk. unfold bind. destruct (c s) as [[a|e] s']; [apply Hk | done].
Qed.

Lemma parse_NoteCreate_valid (raw : RawBody) (payload : NoteCreate) :
  parse_NoteCreate raw = Ok payload -> NoteCreate_valid payload = true.
Proof.
  unfold parse_NoteCreate, NoteCreate_valid.
  destruct (raw_title raw) as [t|], (raw_content raw) as [c|]; try done.
  destruct (title_ok t && content_ok c) eqn:E; [|done]. by intros [= <-].
Qed.

Lemma parse_NoteUpdate_valid (raw : RawBody) (payload : NoteUpdate) :
  parse_NoteUpdate raw = Ok payload -> NoteUpdate_valid payload = true.
Proof.
  unfold parse_NoteUpdate.
  destruct (NoteUpdate_valid _) eqn:E; [|done]. by intros [= <-].
Qed.

(** Whatever the requests, every title in the store passes the check that
    reading it back applies. *)
Lemma served_titles_valid (db : Database) : served db -> titles_valid db.
Proof.
  induction 1 as [|db rq now _ IH]; [apply titles_valid_empty|].
  destruct rq as [|raw|i|i raw|i]; simpl.
  - unfold list_notes_route. rewrite bind_state by done.
    by rewrite list_notes_state.
  - unfold create_note_route.
    destruct (parse_NoteCreate raw) as [p|] eqn:E; [|done].
    rewrite bind_state by done.
    apply titles_valid_create; [|done]. by eapply parse_NoteCreate_valid.
  - unfold get_note_route. rewrite bind_state by (by intros []).
    by rewrite get_note_state.
  - unfold update_note_route.
    destruct (parse_NoteUpdate raw) as [p|] eqn:E; [|done].
    rewrite bind_state by (by intros []).
    apply titles_valid_update; [|done]. by eapply parse_NoteUpdate_valid.
  - unfold delete_note_route. rewrite bind_state by (by intros []).
    by apply titles_valid_delete.
Qed.

(** ** The repository contract *)

(** C1: for an existing note and a payload of [NoteUpdate], [update_note]
    returns a note whose title and content are the payload's where the payload
    supplies them and the existing note's where it holds [None]; its
    [updated_at] is the clock reading of the call whichever fields were
    supplied; and it is the record that [get_note] reads from the store the
    call leaves behind. *)
Theorem update_note_partial (note_id : Z) (payload : NoteUpdate) (now : string)
    (db : Database) (existing : NoteRead) :
  fst (get_note note_id db) = Ok (Some existing) ->
  NoteUpdate_valid payload = true ->
  exists updated db',
    update_note note_id payload now db = (Ok (Some updated), db')
    /\ title updated =
         match nu_title payload with Some t => t | None => title existing end
    /\ content updated =
         match nu_content payload with Some c => c | None => content existing end
    /\ updated_at updated = now
    /\ get_note note_id db' = (Ok (Some updated), db').
Proof.
  intros Hget Hp.
  apply get_note_Some in Hget as (c & Hc & Hok & ->).
  rewrite (update_note_run _ payload now _ _ Hc Hok).
  assert (Hnt : title_ok (match nu_title payload with
                          | Some t => t | None => col_title c end) = true).
  { unfold NoteUpdate_valid in Hp. apply andb_true_iff in Hp as [Ht _].
    by destruct (nu_title payload). }
  rewrite (new_NoteRead_ok _ _ _ _ _ Hnt).
  eexists _, _. split; [reflexivity|]. simpl.
  repeat split.
  rewrite get_note_run. simpl. rewrite lookup_insert_eq. simpl.
  by rewrite (new_NoteRead_ok _ _ _ _ _ Hnt).
Qed.

Lemma update_note_partial_witness :
  fst (get_note 1 db1) = Ok (Some (mkNoteRead 1 "A" "x" T0 T0))
  /\ NoteUpdate_valid (mkNoteUpdate (Some "B") None) = true
  /\ exists updated db',
       update_note 1 (mkNoteUpdate (Some "B") None) T1 db1
       = (Ok (Some updated), db')
       /\ title updated = "B"
       /\ content updated = "x"
       /\ updated_at updated = T1
       /\ get_note 1 db' = (Ok (Some updated), db').
Proof.
  split; [vm_compute; reflexivity|]. split; [reflexivity|].
  apply (update_note_partial 1 (mkNoteUpdate (Some "B") None) T1 db1
           (mkNoteRead 1 "A" "x" T0 T0)).
  - vm_compute. reflexivity.
  - reflexivity.
Defined.

(** C2: for a payload of [NoteCreate], [get_note] on the id that
    [create_note] returned, in the store that [create_note] left, yields the
    very record that [create_note] returned. *)
Theorem create_then_get (payload : NoteCreate) (now : string) (db : Database) :
  NoteCreate_valid payload = true ->
  exists created db',
    create_note payload now db = (Ok created, db')
    /\ get_note (id created) db' = (Ok (Some created), db').
Proof.
  intros Hp. unfold NoteCreate_valid in Hp.
  apply andb_true_iff in Hp as [Ht _].
  rewrite create_note_run, (new_NoteRead_ok _ _ _ _ _ Ht).
  eexists _, _. split; [reflexivity|]. simpl.
  rewrite get_note_run. simpl. rewrite lookup_insert_eq. simpl.
  by rewrite (new_NoteRead_ok _ _ _ _ _ Ht).
Qed.

Lemma create_then_get_witness :
  NoteCreate_valid (mkNoteCreate "B" "") = true
  /\ exists created db',
       create_note (mkNoteCreate "B" "") T1 db1 = (Ok created, db')
       /\ get_note (id created) db' = (Ok (Some created), db').
Proof.
  split; [reflexivity|].
  apply (create_then_get (mkNoteCreate "B" "") T1 db1). reflexivity.
Defined.

(** C6: for a payload of [NoteCreate], the note that [create_note] returns
    has [created_at] and [updated_at] both equal to the one clock reading of
    the call, and the payload's title and content. *)
Theorem create_note_fields (payload : NoteCreate) (now : string) (db : Database) :
  NoteCreate_valid payload = true ->
  exists created db',
    create_note payload now db = (Ok created, db')
    /\ created_at created = updated_at created
    /\ created_at created = now
    /\ updated_at created = now
    /\ title created = nc_title payload
    /\ content created = nc_content payload.
Proof.
  intros Hp. unfold NoteCreate_valid in Hp.
  apply andb_true_iff in Hp as [Ht _].
  rewrite create_note_run, (new_NoteRead_ok _ _ _ _ _ Ht).
  eexists _, _. split; [reflexivity|]. simpl. done.
Qed.

Lemma create_note_fields_witness :
  NoteCreate_valid (mkNoteCreate "A" "x") = true
  /\ exists created db',
       create_note (mkNoteCreate "A" "x") T0 empty_db = (Ok created, db')
       /\ created_at created = updated_at created
       /\ created_at created = T0
       /\ updated_at created = T0
       /\ title created = "A"
       /\ content created = "x".
Proof.
  split; [reflexivity|].
  apply (create_note_fields (mkNoteCreate "A" "x") T0 empty_db). reflexivity.
Defined.







(** C10: [get_note] and [list_notes] leave the store exactly as they found
    it, whether they return or raise. *)
Theorem reads_leave_store (note_id : Z) (db : Database) :
  snd (get_note note_id db) = db /\ snd (list_notes db) = db.
Proof. split; [apply get_note_state | apply list_notes_state]. Qed.

(** C3: on a store whose titles satisfy the data model, [list_notes] returns
    without raising; the notes it returns are exactly the stored ones, each
    once; they are ordered by [updated_at] descending and, among equal
    [updated_at], by [id] descending; and the list is empty exactly when the
    table is. *)
Theorem list_notes_all_sorted (db : Database) :
  titles_valid db ->
  exists items,
    list_notes db = (Ok items, db)
    /\ (forall n, n ∈ items <-> fst (get_note (id n) db) = Ok (Some n))
    /\ length items = size (notes db)
    /\ StronglySorted listed_before items
    /\ (items = [] <-> notes db = ∅).
Proof.
  intros Hv. rewrite (list_notes_run _ Hv). eexists. split; [reflexivity|].
  split; [|split; [|split]].
  - intros n. rewrite list_elem_of_fmap, get_note_Some. split.
    + intros ([i c] & -> & Hin). rewrite merge_sort_Permutation in Hin.
      apply elem_of_map_to_list in Hin. exists c.
      split; [done|]. split; [exact (Hv i c Hin) | done].
    + intros (c & Hc & _ & ->). exists (id n, c). split; [done|].
      rewrite merge_sort_Permutation. by apply elem_of_map_to_list.
  - rewrite length_fmap.
    rewrite (Permutation_length (merge_sort_Permutation order_by_rel _)).
    apply length_map_to_list.
  - apply sorted_rows_strict.
    + rewrite merge_sort_Permutation. apply NoDup_fst_map_to_list.
    + apply StronglySorted_merge_sort; apply _.
  - rewrite <- map_to_list_empty_iff. split.
    + intros H. apply fmap_nil_inv in H.
      apply Permutation_nil_r. by rewrite <- H, merge_sort_Permutation.
    + intros H. by rewrite H.
Qed.

Lemma list_notes_all_sorted_witness :
  titles_valid db_three
  /\ exists items,
       list_notes db_three = (Ok items, db_three)
       /\ (forall n, n ∈ items <-> fst (get_note (id n) db_three) = Ok (Some n))
       /\ length items = size (notes db_three)
       /\ StronglySorted listed_before items
       /\ (items = [] <-> notes db_three = ∅).
Proof.
  assert (Hv : titles_valid db_three).
  { apply (bool_decide_unpack _). vm_compute. exact I. }
  split; [exact Hv|].
  apply (list_notes_all_sorted db_three Hv).
Defined.

(** C7: an update of an existing note keeps the row under the same id with
    the same [created_at]; the note it returns for a payload of [NoteUpdate]
    has that id and that [created_at]; every row under another id, and what
    [get_note] reads for it, is as before; and no id is added or removed. *)
Theorem update_note_frame (note_id : Z) (payload : NoteUpdate) (now : string)
    (db : Database) (existing : NoteRead) :
  fst (get_note note_id db) = Ok (Some existing) ->
  exists r db',
    update_note note_id payload now db = (r, db')
    /\ (exists c', notes db' !! note_id = Some c'
                   /\ id existing = note_id
                   /\ col_created_at c' = created_at existing)
    /\ (NoteUpdate_valid payload = true ->
        exists n, r = Ok (Some n) /\ id n = id existing
                  /\ created_at n = created_at existing)
    /\ (forall other, other <> note_id ->
          notes db' !! other = notes db !! other
          /\ get_note other db' = (fst (get_note other db), db'))
    /\ dom (notes db') = dom (notes db)
    /\ sqlite_sequence db' = sqlite_sequence db.
Proof.
  intros Hget. apply get_note_Some in Hget as (c & Hc & Hok & ->).
  rewrite (update_note_run _ payload now _ _ Hc Hok).
  eexists _, _. split; [reflexivity|]. simpl.
  split; [|split; [|split; [|split]]].
  - eexists. by rewrite lookup_insert_eq.
  - intros Hp. unfold NoteUpdate_valid in Hp.
    apply andb_true_iff in Hp as [Ht _].
    rewrite new_NoteRead_ok; [by eexists|]. by destruct (nu_title payload).
  - intros other Hne. rewrite !get_note_run. simpl.
    rewrite lookup_insert_ne by done. done.
  - rewrite dom_insert_L. apply elem_of_dom_2 in Hc.
    apply set_eq. intros k. rewrite elem_of_union, elem_of_singleton.
    split; [intros [->|?]; done | by right].
  - done.
Qed.

Lemma update_note_frame_witness :
  fst (get_note 2 db_three) = Ok (Some (mkNoteRead 2 "B" "" T0 T0))
  /\ exists r db',
       update_note 2 (mkNoteUpdate (Some "B2") (Some "w")) T1 db_three = (r, db')
       /\ (exists c', notes db' !! 2 = Some c' /\ 2 = 2
                      /\ col_created_at c' = T0)
       /\ (NoteUpdate_valid (mkNoteUpdate (Some "B2") (Some "w")) = true ->
           exists n, r = Ok (Some n) /\ id n = 2 /\ created_at n = T0)
       /\ (forall other, other <> 2 ->
             notes db' !! other = notes db_three !! other
             /\ get_note other db' = (fst (get_note other db_three), db'))
       /\ dom (notes db') = dom (notes db_three)
       /\ sqlite_sequence db' = sqlite_sequence db_three.
Proof.
  split; [vm_compute; reflexivity|].
  apply (update_note_frame 2 (mkNoteUpdate (Some "B2") (Some "w")) T1 db_three
           (mkNoteRead 2 "B" "" T0 T0)).
  vm_compute. reflexivity.
Defined.

(** C9: in every store that a run of create, update and delete calls (and
    reads) leaves behind, with clock readings that never go back, each stored
    row and each note read from it has [created_at] no later than
    [updated_at] as text. *)
Theorem reachable_updated_after_created (t : string) (db : Database) :
  reachable t db ->
  (forall i c, notes db !! i = Some c ->
     str_le (col_created_at c) (col_updated_at c))
  /\ (forall i n, fst (get_note i db) = Ok (Some n) ->
        str_le (created_at n) (updated_at n)).
Proof.
  intros Hr. apply reachable_stamps_ordered in Hr.
  assert (Hrow : forall i c, notes db !! i = Some c ->
                   str_le (col_created_at c) (col_updated_at c)).
  { intros i c Hc. by destruct (Hr i c Hc). }
  split; [exact Hrow|].
  intros i n Hn. apply get_note_Some in Hn as (c & Hc & _ & ->).
  simpl. by eapply Hrow.
Qed.

Lemma reachable_db2 : reachable T1 db2.
Proof.
  unfold db2, db1.
  apply (reach_update T0); [|reflexivity].
  apply (reach_create T0); [|reflexivity].
  apply reach_init.
Defined.

Lemma reachable_updated_after_created_witness :
  reachable T1 db2
  /\ (forall i c, notes db2 !! i = Some c ->
        str_le (col_created_at c) (col_updated_at c))
  /\ (forall i n, fst (get_note i db2) = Ok (Some n) ->
        str_le (created_at n) (updated_at n)).
Proof.
  split; [exact reachable_db2|].
  apply (reachable_updated_after_created T1 db2 reachable_db2).
Defined.

(** ** The create payload *)

(** C8, as the specification words it, fails on a title made of one space:
    its trimmed length is zero, yet the body parses, the handler runs and the
    note is stored. *)
Lemma create_payload_trimmed_counterexample :
  spec_create_accepts (mkRawBody (Some " ") (Some "")) = false
  /\ parse_NoteCreate (mkRawBody (Some " ") (Some ""))
     = Ok (mkNoteCreate " " "")
  /\ fst (create_note_route (mkRawBody (Some " ") (Some "")) T0 empty_db)
     = Ok (mkResponse HTTP_201_CREATED (NoteBody (mkNoteRead 1 " " "" T0 T0)))
  /\ notes (snd (create_note_route (mkRawBody (Some " ") (Some "")) T0 empty_db))
     !! 1 = Some (mkCols " " "" T0 T0).
Proof. repeat split; vm_compute; reflexivity. Qed.

(** C8, amended: a create body parses exactly when its title is present with
    a length, as given, between 1 and 200 and its content is present (of any
    length); a body that does not parse is answered without the handler being
    called, and the store stays as it was. *)
Theorem create_payload_accepted (raw : RawBody) (now : string) (db : Database) :
  (is_ok (parse_NoteCreate raw) = true <->
   exists t c, raw_title raw = Some t /\ raw_content raw = Some c
               /\ (1 <= String.length t <= 200)%nat)
  /\ (is_ok (parse_NoteCreate raw) = false ->
      create_note_route raw now db = (Ok unprocessable, db)).
Proof.
  unfold create_note_route, parse_NoteCreate. split.
  - destruct (raw_title raw) as [t|], (raw_content raw) as [c|]; simpl.
    + rewrite content_ok_true, andb_true_r. unfold title_ok.
      destruct (Nat.leb_spec 1 (String.length t)) as [H1|H1];
        destruct (Nat.leb_spec (String.length t) 200) as [H2|H2]; simpl;
        (split; [intros ?; try done; by exists t, c
                | intros (? & ? & [= <-] & _ & ?); try done; lia]).
    + split; [done|]. intros (? & ? & _ & ? & _). done.
    + split; [done|]. intros (? & ? & ? & _). done.
    + split; [done|]. intros (? & ? & ? & _). done.
  - destruct (raw_title raw) as [t|], (raw_content raw) as [c|]; simpl;
      try done.
    destruct (title_ok t && content_ok c); done.
Qed.

Lemma create_payload_accepted_witness :
  is_ok (parse_NoteCreate (mkRawBody (Some "") (Some "x"))) = false
  /\ create_note_route (mkRawBody (Some "") (Some "x")) T1 db1
     = (Ok unprocessable, db1).
Proof.
  split; [reflexivity|].
  apply (create_payload_accepted (mkRawBody (Some "") (Some "x")) T1 db1).
  reflexivity.
Defined.

(** ** The clock string *)

Lemma string_compare_cons (a b : ascii) (s s' : string) :
  String.compare (String a s) (String b s')
  = lex (Ascii.compare a b) (String.compare s s').
Proof. simpl. by destruct (Ascii.compare a b). Qed.

Lemma string_compare_same_head (a : ascii) (s s' : string) :
  String.compare (String a s) (String a s') = String.compare s s'.
Proof.
  rewrite string_compare_cons. unfold Ascii.compare.
  by rewrite N.compare_refl.
Qed.

Lemma string_append_nil (b : string) : ("" ++ b)%string = b.
Proof. reflexivity. Qed.

Lemma string_append_cons (x : ascii) (a b : string) :
  (String x a ++ b)%string = String x (a ++ b).
Proof. reflexivity. Qed.

Lemma string_append_assoc (a b c : string) :
  ((a ++ b) ++ c = a ++ (b ++ c))%string.
Proof.
  induction a as [|x a IH]; [done|].
  rewrite !string_append_cons. by f_equal.
Qed.

Lemma string_length_append (a b : string) :
  String.length (a ++ b) = (String.length a + String.length b)%nat.
Proof.
  induction a as [|x a IH]; [done|].
  rewrite string_append_cons. cbn [String.length Nat.add]. by f_equal.
Qed.

(** Decimal digits sort as the numbers they print. *)
Lemma digit_compare (a b : N) :
  (a < 10)%N -> (b < 10)%N ->
  Ascii.compare (digit a) (digit b) = (a ?= b)%N.
Proof.
  intros Ha Hb. unfold Ascii.compare, digit.
  rewrite !N_ascii_embedding by lia.
  destruct (N.compare_spec a b) as [E|E|E].
  - subst. apply N.compare_refl.
  - apply N.compare_lt_iff. lia.
  - apply N.compare_gt_iff. lia.
Qed.

(** Comparing quotient first and remainder next is comparing the numbers. *)
Lemma lex_div_mod (b m n : N) (c : comparison) :
  (0 < b)%N ->
  lex (m / b ?= n / b)%N (lex (m mod b ?= n mod b)%N c) = lex (m ?= n)%N c.
Proof.
  intros Hb.
  pose proof (N.div_mod m b ltac:(lia)) as Hm.
  pose proof (N.div_mod n b ltac:(lia)) as Hn.
  pose proof (N.mod_lt m b ltac:(lia)) as Hm'.
  pose proof (N.mod_lt n b ltac:(lia)) as Hn'.
  revert Hm Hn Hm' Hn'.
  generalize (m / b)%N (m mod b)%N (n / b)%N (n mod b)%N.
  intros q r q' r' -> -> Hr Hr'.
  destruct (N.compare_spec q q') as [E|E|E]; simpl.
  - subst q'. destruct (N.compare_spec r r') as [E|E|E]; simpl.
    + subst. by rewrite N.compare_refl.
    + assert (H : (b * q + r < b * q + r')%N) by lia.
      apply N.compare_lt_iff in H. by rewrite H.
    + assert (H : (b * q + r' < b * q + r)%N) by lia.
      apply N.compare_gt_iff in H. by rewrite H.
  - assert (H : (b * q + r < b * q' + r')%N) by nia.
    apply N.compare_lt_iff in H. by rewrite H.
  - assert (H : (b * q' + r' < b * q + r)%N) by nia.
    apply N.compare_gt_iff in H. by rewrite H.
Qed.

Lemma pad2_compare (m n : N) (r r' : string) :
  (m < 100)%N -> (n < 100)%N ->
  String.compare (pad2 m ++ r) (pad2 n ++ r')
  = lex (m ?= n)%N (String.compare r r').
Proof.
  intros Hm Hn. unfold pad2.
  rewrite !string_append_cons, !string_append_nil.
  rewrite !string_compare_cons.
  rewrite !digit_compare;
    try (apply N.Div0.div_lt_upper_bound; lia);
    try (apply N.mod_lt; lia).
  apply lex_div_mod. lia.
Qed.

Lemma pad4_compare (m n : N) (r r' : string) :
  (m < 10000)%N -> (n < 10000)%N ->
  String.compare (pad4 m ++ r) (pad4 n ++ r')
  = lex (m ?= n)%N (String.compare r r').
Proof.
  intros Hm Hn. unfold pad4. rewrite !string_append_assoc.
  rewrite !pad2_compare;
    try (apply N.Div0.div_lt_upper_bound; lia);
    try (apply N.mod_lt; lia).
  apply lex_div_mod. lia.
Qed.

Lemma datetime_ok_bounds (d : datetime) :
  datetime_ok d = true ->
  (1 <= dt_year d <= 9999 /\ 1 <= dt_month d <= 12 /\ 1 <= dt_day d <= 31
   /\ dt_hour d <= 23 /\ dt_minute d <= 59 /\ dt_second d <= 59
   /\ dt_microsecond d <= 999999)%N.
Proof.
  unfold datetime_ok. rewrite !andb_true_iff, !N.leb_le. tauto.
Qed.

(** The strings of two clock readings compare as the readings do, to the
    second. *)
Lemma utc_now_iso_compare (d1 d2 : datetime) :
  datetime_ok d1 = true -> datetime_ok d2 = true ->
  String.compare (utc_now_iso d1) (utc_now_iso d2) = compare_seconds d1 d2.
Proof.
  intros H1 H2.
  apply datetime_ok_bounds in H1, H2.
  unfold utc_now_iso, _utc_now_iso, isoformat, replace_microsecond,
    compare_seconds.
  cbn [dt_year dt_month dt_day dt_hour dt_minute dt_second dt_microsecond].
  change ((0 =? 0)%N) with true. cbv iota.
  rewrite !string_append_cons, !string_append_nil.
  rewrite pad4_compare by lia. f_equal.
  rewrite string_compare_same_head, pad2_compare by lia. f_equal.
  rewrite string_compare_same_head, pad2_compare by lia. f_equal.
  rewrite string_compare_same_head, pad2_compare by lia. f_equal.
  rewrite string_compare_same_head, pad2_compare by lia. f_equal.
  rewrite string_compare_same_head, pad2_compare by lia.
  rewrite compare_refl.
  by destruct (dt_second d1 ?= dt_second d2)%N.
Qed.

Lemma lex_Eq (c1 c2 : comparison) : lex c1 c2 = Eq <-> c1 = Eq /\ c2 = Eq.
Proof. destruct c1, c2; simpl; split; (by intros [? ?] || done). Qed.

Lemma compare_seconds_Eq (d1 d2 : datetime) :
  compare_seconds d1 d2 = Eq <->
  replace_microsecond d1 0 = replace_microsecond d2 0.
Proof.
  unfold compare_seconds, replace_microsecond.
  rewrite !lex_Eq, !N.compare_eq_iff. split.
  - intros (-> & -> & -> & -> & -> & ->). done.
  - intros [= -> -> -> -> -> ->]. done.
Qed.

(** X1: the strings of two clock readings are in the order of the readings:
    when the clock has not gone back, the later string is not smaller; and a
    strictly smaller string comes from a strictly earlier reading. *)
Theorem utc_now_iso_monotone (d1 d2 : datetime) :
  datetime_ok d1 = true -> datetime_ok d2 = true ->
  (datetime_compare d1 d2 <> Gt -> str_le (utc_now_iso d1) (utc_now_iso d2))
  /\ (String.ltb (utc_now_iso d1) (utc_now_iso d2) = true ->
      datetime_compare d1 d2 = Lt).
Proof.
  intros H1 H2. unfold str_le, String.leb, String.ltb, datetime_compare.
  rewrite (utc_now_iso_compare _ _ H1 H2).
  destruct (compare_seconds d1 d2),
    (dt_microsecond d1 ?= dt_microsecond d2)%N; simpl; by split.
Qed.

Lemma utc_now_iso_monotone_witness :
  datetime_ok clock0 = true /\ datetime_ok clock1 = true
  /\ (datetime_compare clock0 clock1 <> Gt -> str_le T0 T1)
  /\ (String.ltb T0 T1 = true -> datetime_compare clock0 clock1 = Lt).
Proof.
  split; [reflexivity|]. split; [reflexivity|].
  apply (utc_now_iso_monotone clock0 clock1); reflexivity.
Defined.

(** X2: the clock string is always 25 characters long, and two readings give
    the same string exactly when they fall in the same second. *)
Theorem utc_now_iso_same_second (d1 d2 : datetime) :
  datetime_ok d1 = true -> datetime_ok d2 = true ->
  String.length (utc_now_iso d1) = 25%nat
  /\ (utc_now_iso d1 = utc_now_iso d2 <->
      replace_microsecond d1 0 = replace_microsecond d2 0).
Proof.
  intros H1 H2. split.
  - unfold utc_now_iso, _utc_now_iso, isoformat, pad4.
    cbn [replace_microsecond dt_microsecond].
    change ((0 =? 0)%N) with true. cbv iota.
    rewrite !string_length_append. reflexivity.
  - rewrite <- compare_seconds_Eq, <- (utc_now_iso_compare _ _ H1 H2). split.
    + intros ->. apply compare_refl.
    + apply String.compare_eq_iff.
Qed.

Lemma utc_now_iso_same_second_witness :
  datetime_ok clock0 = true
  /\ datetime_ok (replace_microsecond clock0 999999) = true
  /\ String.length (utc_now_iso clock0) = 25%nat
  /\ (utc_now_iso clock0 = utc_now_iso (replace_microsecond clock0 999999) <->
      replace_microsecond clock0 0
      = replace_microsecond (replace_microsecond clock0 999999) 0).
Proof.
  split; [reflexivity|]. split; [reflexivity|].
  apply (utc_now_iso_same_second clock0 (replace_microsecond clock0 999999));
    reflexivity.
Defined.

(** ** The file location *)

Lemma endswith_sep_split (a : string) :
  endswith_sep a = true -> exists dir, a = (dir ++ "/")%string.
Proof.
  induction a as [|c a IH]; [done|].
  destruct a as [|c' a'].
  - simpl. intros H. apply Ascii.eqb_eq in H. subst c. by exists ""%string.
  - intros H. destruct (IH H) as [dir Hdir].
    exists (String c dir). by rewrite string_append_cons, <- Hdir.
Qed.

Lemma endswith_sep_cons (c c' : ascii) (s : string) :
  endswith_sep (String c (String c' s)) = endswith_sep (String c' s).
Proof. reflexivity. Qed.

Lemma endswith_sep_append (dir : string) :
  endswith_sep (dir ++ "/") = true.
Proof.
  induction dir as [|c dir IH]; [reflexivity|].
  rewrite string_append_cons.
  destruct dir as [|c' dir'].
  - reflexivity.
  - rewrite string_append_cons in *. by rewrite endswith_sep_cons.
Qed.

(** X3: a non-empty [SQLITE_DB] is the path, whatever the working directory;
    an empty one counts as unset; and the fallback is [notes.db] directly
    inside the working directory: appended as it is when the directory ends
    in a separator, and after one added separator when it does not. *)
Theorem get_db_path_fallback (env_path cwd : string) :
  env_path <> ""%string -> cwd <> ""%string ->
  get_db_path (Some env_path) cwd = env_path
  /\ get_db_path (Some ""%string) cwd = get_db_path None cwd
  /\ ((exists dir, cwd = (dir ++ "/")%string) ->
      get_db_path None cwd = (cwd ++ "notes.db")%string)
  /\ ((forall dir, cwd <> (dir ++ "/")%string) ->
      get_db_path None cwd = (cwd ++ "/notes.db")%string).
Proof.
  intros Henv Hcwd. split; [|split; [done|]].
  - unfold get_db_path. apply String.eqb_neq in Henv. by rewrite Henv.
  - unfold get_db_path, path_join. cbn [String.prefix].
    apply String.eqb_neq in Hcwd. rewrite Hcwd. simpl. split.
    + intros [dir ->]. by rewrite endswith_sep_append.
    + intros Hno. destruct (endswith_sep cwd) eqn:E; [|done].
      apply endswith_sep_split in E as [dir ->]. by destruct (Hno dir).
Qed.

Lemma get_db_path_fallback_witness :
  "/data/notes.sqlite"%string <> ""%string /\ "/app/"%string <> ""%string
  /\ get_db_path (Some "/data/notes.sqlite"%string) "/app/"
     = "/data/notes.sqlite"%string
  /\ get_db_path (Some ""%string) "/app/" = get_db_path None "/app/"
  /\ get_db_path None "/app/" = "/app/notes.db"%string.
Proof.
  assert (H1 : "/data/notes.sqlite"%string <> ""%string) by done.
  assert (H2 : "/app/"%string <> ""%string) by done.
  destruct (get_db_path_fallback "/data/notes.sqlite" "/app/" H1 H2)
    as (Ha & Hb & Hc & _).
  split; [exact H1|]. split; [exact H2|]. split; [exact Ha|].
  split; [exact Hb|].
  apply Hc. by exists "/app"%string.
Defined.

(** ** More on the repository *)



Lemma update_note_sequence (note_id : Z) (payload : NoteUpdate) (now : string)
    (db : Database) :
  sqlite_sequence (snd (update_note note_id payload now db))
  = sqlite_sequence db.
Proof.
  destruct (notes db !! note_id) as [c|] eqn:Hc.
  - destruct (title_ok (col_title c)) eqn:Hok.
    + by rewrite (update_note_run _ payload now _ _ Hc Hok).
    + by rewrite (update_note_unreadable _ _ _ _ _ Hc Hok).
  - by rewrite update_note_absent_state.
Qed.

(** The AUTOINCREMENT counter never goes down. *)
Lemma evolves_sequence (db db' : Database) :
  evolves db db' -> sqlite_sequence db <= sqlite_sequence db'.
Proof.
  induction 1 as [db | db db' c _ IH]; [lia|].
  etrans; [exact IH|]. destruct c; simpl.
  - by rewrite list_notes_state.
  - by rewrite get_note_state.
  - rewrite create_note_run. cbn [snd sqlite_sequence]. unfold next_rowid. lia.
  - by rewrite update_note_sequence.
  - by rewrite delete_note_run.
Qed.

(** X5: ids are handed out in strictly increasing order: whatever calls come
    between two creates, deletes included, the second create returns a larger
    id than the first. *)
Theorem create_note_never_reuses_id (payload payload' : NoteCreate)
    (now now' : string) (db later : Database) :
  NoteCreate_valid payload = true ->
  NoteCreate_valid payload' = true ->
  evolves (snd (create_note payload now db)) later ->
  exists first second,
    fst (create_note payload now db) = Ok first
    /\ fst (create_note payload' now' later) = Ok second
    /\ id first < id second.
Proof.
  intros Hp Hp' Hev. apply evolves_sequence in Hev.
  unfold NoteCreate_valid in Hp, Hp'.
  apply andb_true_iff in Hp as [Ht _]. apply andb_true_iff in Hp' as [Ht' _].
  rewrite create_note_run in Hev. cbn [snd sqlite_sequence] in Hev.
  rewrite !create_note_run. cbn [fst].
  rewrite (new_NoteRead_ok _ _ _ _ _ Ht), (new_NoteRead_ok _ _ _ _ _ Ht').
  eexists _, _. split; [reflexivity|]. split; [reflexivity|]. cbn [id].
  revert Hev. generalize (next_rowid db). intros i Hev.
  unfold next_rowid. lia.
Qed.

Lemma evolves_db1_db3 : evolves db1 db3.
Proof.
  unfold db3, db2.
  apply (evolves_step db1 _ (Call_delete_note 1)).
  apply (evolves_step db1 _ (Call_update_note 1 (mkNoteUpdate None (Some "y")) T1)).
  apply evolves_refl.
Defined.

Lemma create_note_never_reuses_id_witness :
  NoteCreate_valid (mkNoteCreate "A" "x") = true
  /\ NoteCreate_valid (mkNoteCreate "D" "") = true
  /\ evolves (snd (create_note (mkNoteCreate "A" "x") T0 empty_db)) db3
  /\ exists first second,
       fst (create_note (mkNoteCreate "A" "x") T0 empty_db) = Ok first
       /\ fst (create_note (mkNoteCreate "D" "") T1 db3) = Ok second
       /\ id first < id second.
Proof.
  split; [reflexivity|]. split; [reflexivity|]. split; [exact evolves_db1_db3|].
  apply (create_note_never_reuses_id (mkNoteCreate "A" "x") (mkNoteCreate "D" "")
           T0 T1 empty_db db3); [reflexivity | reflexivity | exact evolves_db1_db3].
Defined.

(** X6: for an id in the signed 64-bit range, a delete touches the row of
    its id and nothing else, and deleting again returns [False] and changes
    nothing. *)
Theorem delete_note_twice (note_id : Z) (db : Database) :
  int64_ok note_id = true ->
  exists removed db',
    delete_note note_id db = (Ok removed, db')
    /\ delete_note note_id db' = (Ok false, db')
    /\ sqlite_sequence db' = sqlite_sequence db
    /\ forall other, other <> note_id ->
         notes db' !! other = notes db !! other
         /\ get_note other db' = (fst (get_note other db), db').
Proof.
  intros Hid. eexists _, _. split.
  { rewrite delete_note_run, (fits_integer_int64 _ _ Hid). reflexivity. }
  cbn [notes sqlite_sequence]. split; [|split; [done|]].
  - rewrite delete_note_run, (fits_integer_int64 _ _ Hid).
    cbn [notes sqlite_sequence]. rewrite lookup_delete_eq.
    rewrite bool_decide_eq_false_2 by (by intros [? ?]).
    by rewrite delete_id by apply lookup_delete_eq.
  - intros other Hne. rewrite !get_note_run. cbn [notes fst].
    by rewrite lookup_delete_ne.
Qed.

Lemma delete_note_twice_witness :
  int64_ok 2 = true
  /\ exists removed db',
       delete_note 2 db_three = (Ok removed, db')
       /\ delete_note 2 db' = (Ok false, db')
       /\ sqlite_sequence db' = sqlite_sequence db_three
       /\ forall other, other <> 2 ->
            notes db' !! other = notes db_three !! other
            /\ get_note other db' = (fst (get_note other db_three), db').
Proof.
  split; [reflexivity|].
  apply (delete_note_twice 2 db_three). reflexivity.
Defined.

(** X7: an update is idempotent: the same payload applied again at the same
    clock reading returns the same note and leaves the same store. *)
Theorem update_note_idempotent (note_id : Z) (payload : NoteUpdate)
    (now : string) (db : Database) (existing : NoteRead) :
  fst (get_note note_id db) = Ok (Some existing) ->
  NoteUpdate_valid payload = true ->
  update_note note_id payload now (snd (update_note note_id payload now db))
  = update_note note_id payload now db.
Proof.
  intros Hget Hp.
  apply get_note_Some in Hget as (c & Hc & Hok & ->).
  assert (Hnt : title_ok (match nu_title payload with
                          | Some t => t | None => col_title c end) = true).
  { unfold NoteUpdate_valid in Hp. apply andb_true_iff in Hp as [Ht _].
    by destruct (nu_title payload). }
  rewrite (update_note_run _ payload now _ _ Hc Hok). cbn [snd].
  erewrite update_note_run;
    [| cbn [notes]; apply lookup_insert_eq | exact Hnt].
  cbn [notes sqlite_sequence col_title col_content col_created_at].
  rewrite insert_insert_eq.
  destruct (nu_title payload), (nu_content payload); reflexivity.
Qed.

Lemma update_note_idempotent_witness :
  fst (get_note 1 db1) = Ok (Some (mkNoteRead 1 "A" "x" T0 T0))
  /\ NoteUpdate_valid (mkNoteUpdate (Some "B") None) = true
  /\ update_note 1 (mkNoteUpdate (Some "B") None) T1
       (snd (update_note 1 (mkNoteUpdate (Some "B") None) T1 db1))
     = update_note 1 (mkNoteUpdate (Some "B") None) T1 db1.
Proof.
  split; [vm_compute; reflexivity|]. split; [reflexivity|].
  apply (update_note_idempotent 1 (mkNoteUpdate (Some "B") None) T1 db1
           (mkNoteRead 1 "A" "x" T0 T0)).
  - vm_compute. reflexivity.
  - reflexivity.
Defined.

(** X8: with a clock that does not go back, an update never moves
    [updated_at] backwards: the returned note's [updated_at] is no earlier
    than the one it replaces. *)
Theorem update_note_advances (t now : string) (note_id : Z)
    (payload : NoteUpdate) (db : Database) (existing : NoteRead) :
  reachable t db -> str_le t now ->
  fst (get_note note_id db) = Ok (Some existing) ->
  NoteUpdate_valid payload = true ->
  exists updated,
    fst (update_note note_id payload now db) = Ok (Some updated)
    /\ str_le (updated_at existing) (updated_at updated)
    /\ str_le (created_at updated) (updated_at updated).
Proof.
  intros Hr Hle Hget Hp. apply reachable_stamps_ordered in Hr.
  apply get_note_Some in Hget as (c & Hc & Hok & ->).
  destruct (Hr _ _ Hc) as [Hcu Hut].
  rewrite (update_note_run _ payload now _ _ Hc Hok).
  rewrite new_NoteRead_ok.
  - eexists. split; [reflexivity|]. simpl. split.
    + by eapply str_le_trans.
    + eapply str_le_trans; [exact Hcu|]. by eapply str_le_trans.
  - unfold NoteUpdate_valid in Hp. apply andb_true_iff in Hp as [Ht _].
    by destruct (nu_title payload).
Qed.

Lemma reachable_db1 : reachable T0 db1.
Proof.
  unfold db1. apply (reach_create T0); [apply reach_init | reflexivity].
Defined.

Lemma update_note_advances_witness :
  reachable T0 db1 /\ str_le T0 T1
  /\ fst (get_note 1 db1) = Ok (Some (mkNoteRead 1 "A" "x" T0 T0))
  /\ NoteUpdate_valid (mkNoteUpdate (Some "B") None) = true
  /\ exists updated,
       fst (update_note 1 (mkNoteUpdate (Some "B") None) T1 db1)
       = Ok (Some updated)
       /\ str_le T0 (updated_at updated)
       /\ str_le (created_at updated) (updated_at updated).
Proof.
  split; [exact reachable_db1|]. split; [reflexivity|].
  split; [vm_compute; reflexivity|]. split; [reflexivity|].
  apply (update_note_advances T0 T1 1 (mkNoteUpdate (Some "B") None) db1
           (mkNoteRead 1 "A" "x" T0 T0) reachable_db1).
  - reflexivity.
  - vm_compute. reflexivity.
  - reflexivity.
Defined.

(** ** More on listing *)

Lemma listed_before_asym (a b : NoteRead) :
  listed_before a b -> listed_before b a -> False.
Proof.
  unfold listed_before, String.ltb.
  intros [Hab | [Eab Iab]] [Hba | [Eba Iba]].
  - rewrite String.compare_antisym in Hba.
    by destruct (String.compare (updated_at b) (updated_at a)).
  - rewrite Eba, compare_refl in Hab. done.
  - rewrite Eab, compare_refl in Hba. done.
  - lia.
Qed.

Lemma StronglySorted_asym_NoDup {A} (R : relation A) (l : list A) :
  (forall x, ~ R x x) -> StronglySorted R l -> NoDup l.
Proof.
  intros Hirr. induction 1 as [|x l _ IH Hx]; constructor; [|done].
  intros Hin. rewrite Forall_forall in Hx. by apply (Hirr x), Hx.
Qed.

Lemma StronglySorted_filter {A} (R : relation A) (P : A -> Prop)
    `{forall x, Decision (P x)} (l : list A) :
  StronglySorted R l -> StronglySorted R (filter P l).
Proof.
  induction 1 as [|x l _ IH Hx]; [constructor|].
  rewrite filter_cons. destruct (decide (P x)); [|done].
  constructor; [done|]. apply Forall_forall. intros y Hy.
  apply list_elem_of_filter in Hy as [_ Hy].
  rewrite Forall_forall in Hx. by apply Hx.
Qed.

Lemma listing_elem (db : Database) (n : NoteRead) :
  titles_valid db ->
  n ∈ note_of_row <$> merge_sort order_by_rel (map_to_list (notes db)) <->
  fst (get_note (id n) db) = Ok (Some n).
Proof.
  intros Hv. rewrite list_elem_of_fmap, get_note_Some. split.
  - intros ([i c] & -> & Hin). rewrite merge_sort_Permutation in Hin.
    apply elem_of_map_to_list in Hin. exists c.
    split; [done|]. split; [exact (Hv i c Hin) | done].
  - intros (c & Hc & _ & ->). exists (id n, c). split; [done|].
    rewrite merge_sort_Permutation. by apply elem_of_map_to_list.
Qed.

Lemma listing_sorted (db : Database) :
  StronglySorted listed_before
    (note_of_row <$> merge_sort order_by_rel (map_to_list (notes db))).
Proof.
  apply sorted_rows_strict.
  - rewrite merge_sort_Permutation. apply NoDup_fst_map_to_list.
  - apply StronglySorted_merge_sort; apply _.
Qed.

(** A strictly ordered list of exactly the stored notes is the listing. *)
Lemma listing_determined (db : Database) (items : list NoteRead) :
  titles_valid db ->
  StronglySorted listed_before items ->
  (forall n, n ∈ items <-> fst (get_note (id n) db) = Ok (Some n)) ->
  list_notes db = (Ok items, db).
Proof.
  intros Hv Hs Hin. rewrite (list_notes_run _ Hv). do 2 f_equal.
  pose proof (listing_sorted db) as Hs'.
  assert (Hirr : forall x, ~ listed_before x x).
  { intros x Hx. exact (listed_before_asym x x Hx Hx). }
  apply (StronglySorted_unique_strong listed_before); [|done..|].
  - intros x y _ _ Hxy Hyx. destruct (listed_before_asym _ _ Hxy Hyx).
  - apply NoDup_Permutation.
    + by apply (StronglySorted_asym_NoDup listed_before).
    + by apply (StronglySorted_asym_NoDup listed_before).
    + intros n. by rewrite (listing_elem _ _ Hv), Hin.
Qed.

(** X9: the order of the listing is fully fixed by [ORDER BY updated_at DESC,
    id DESC]: any list that holds exactly the stored notes and is strictly
    ordered that way is the list that [list_notes] returns. *)
Theorem list_notes_order_unique (db : Database) (items : list NoteRead) :
  titles_valid db ->
  StronglySorted listed_before items ->
  (forall n, n ∈ items <-> fst (get_note (id n) db) = Ok (Some n)) ->
  fst (list_notes db) = Ok items.
Proof. intros Hv Hs Hin. by rewrite (listing_determined db items). Qed.

Lemma mapM_row_to_note_raise {S} (rows : list (Z * Cols)) (s : S) :
  Exists (fun r => title_ok (col_title (row_cols r)) = false) rows ->
  mapM _row_to_note rows s = (Raise ValidationError, s).
Proof.
  induction rows as [|r rows IH]; intros Hex; [by inversion Hex|].
  cbn [mapM]. unfold bind at 1, _row_to_note at 1, lift.
  destruct (title_ok (col_title (row_cols r))) eqn:Hr.
  - rewrite (new_NoteRead_ok _ _ _ _ _ Hr). unfold bind.
    rewrite IH; [done|]. inversion Hex; [congruence | done].
  - unfold new_NoteRead. by rewrite Hr.
Qed.

(** X10: a stored row whose title is not 1 to 200 characters long is never
    returned: [get_note] on it, [update_note] on it and [list_notes] raise
    [ValidationError] and leave the store as it is, while [delete_note] still
    removes it. *)
Theorem unreadable_row (note_id : Z) (c : Cols) (payload : NoteUpdate)
    (now : string) (db : Database) :
  notes db !! note_id = Some c ->
  title_ok (col_title c) = false ->
  get_note note_id db = (Raise ValidationError, db)
  /\ update_note note_id payload now db = (Raise ValidationError, db)
  /\ list_notes db = (Raise ValidationError, db)
  /\ fst (delete_note note_id db) = Ok true
  /\ notes (snd (delete_note note_id db)) !! note_id = None.
Proof.
  intros Hc Hbad. split; [|split; [|split; [|split]]].
  - rewrite get_note_run, Hc. unfold new_NoteRead. by rewrite Hbad.
  - by apply (update_note_unreadable _ _ _ _ c).
  - unfold list_notes, get_connection, bind at 1, select_all_ordered. simpl.
    rewrite mapM_row_to_note_raise; [done|].
    apply Exists_exists. exists (note_id, c). split; [|done].
    rewrite merge_sort_Permutation. by apply elem_of_map_to_list.
  - rewrite delete_note_run, (fits_integer_stored _ _ _ Hc). cbn [fst].
    rewrite Hc. by rewrite bool_decide_eq_true_2 by (by eexists).
  - rewrite delete_note_run. simpl. apply lookup_delete_eq.
Qed.

Lemma unreadable_row_witness :
  notes db_unreadable !! 1 = Some (mkCols "" "x" T0 T0)
  /\ title_ok "" = false
  /\ get_note 1 db_unreadable = (Raise ValidationError, db_unreadable)
  /\ update_note 1 (mkNoteUpdate (Some "B") None) T1 db_unreadable
     = (Raise ValidationError, db_unreadable)
  /\ list_notes db_unreadable = (Raise ValidationError, db_unreadable)
  /\ fst (delete_note 1 db_unreadable) = Ok true
  /\ notes (snd (delete_note 1 db_unreadable)) !! 1 = None.
Proof.
  split; [vm_compute; reflexivity|]. split; [reflexivity|].
  apply (unreadable_row 1 (mkCols "" "x" T0 T0) (mkNoteUpdate (Some "B") None)
           T1 db_unreadable).
  - vm_compute. reflexivity.
  - reflexivity.
Defined.

Lemma titles_valid_db_three : titles_valid db_three.
Proof. apply (bool_decide_unpack _). vm_compute. exact I. Defined.

Lemma listing_db_three :
  note_of_row <$> merge_sort order_by_rel (map_to_list (notes db_three))
  = [mkNoteRead 3 "C" "z" T1 T1; mkNoteRead 2 "B" "" T0 T0;
     mkNoteRead 1 "A" "x" T0 T0].
Proof. vm_compute. reflexivity. Defined.

Lemma list_notes_order_unique_witness :
  titles_valid db_three
  /\ StronglySorted listed_before
       [mkNoteRead 3 "C" "z" T1 T1; mkNoteRead 2 "B" "" T0 T0;
        mkNoteRead 1 "A" "x" T0 T0]
  /\ (forall n,
        n ∈ [mkNoteRead 3 "C" "z" T1 T1; mkNoteRead 2 "B" "" T0 T0;
             mkNoteRead 1 "A" "x" T0 T0]
        <-> fst (get_note (id n) db_three) = Ok (Some n))
  /\ fst (list_notes db_three)
     = Ok [mkNoteRead 3 "C" "z" T1 T1; mkNoteRead 2 "B" "" T0 T0;
           mkNoteRead 1 "A" "x" T0 T0].
Proof.
  assert (Hs : StronglySorted listed_before
                 [mkNoteRead 3 "C" "z" T1 T1; mkNoteRead 2 "B" "" T0 T0;
                  mkNoteRead 1 "A" "x" T0 T0]).
  { rewrite <- listing_db_three. apply listing_sorted. }
  assert (Hin : forall n,
             n ∈ [mkNoteRead 3 "C" "z" T1 T1; mkNoteRead 2 "B" "" T0 T0;
                  mkNoteRead 1 "A" "x" T0 T0]
             <-> fst (get_note (id n) db_three) = Ok (Some n)).
  { intros n. rewrite <- listing_db_three.
    apply listing_elem, titles_valid_db_three. }
  split; [exact titles_valid_db_three|]. split; [exact Hs|].
  split; [exact Hin|].
  exact (list_notes_order_unique db_three _ titles_valid_db_three Hs Hin).
Defined.

Lemma str_le_cases (a b : string) :
  str_le a b -> String.ltb a b = true \/ a = b.
Proof.
  unfold str_le, String.leb, String.ltb.
  destruct (String.compare a b) eqn:E; [|by left|done].
  intros _. right. by apply String.compare_eq_iff.
Qed.

Lemma str_le_lt_trans (a b c : string) :
  str_le a b -> String.ltb b c = true -> String.ltb a c = true.
Proof.
  intros Hab Hbc. destruct (str_le_cases _ _ Hab) as [Hlt | ->]; [|done].
  unfold String.ltb in *.
  destruct (String.compare a b) eqn:Eab; try done.
  destruct (String.compare b c) eqn:Ebc; try done.
  by rewrite (compare_Lt_trans _ _ _ Eab Ebc).
Qed.

(** X11: with a clock that does not go back, a note just created comes first
    in the listing, and the notes listed before keep their order behind it. *)
Theorem create_note_listed_first (t now : string) (payload : NoteCreate)
    (db : Database) :
  reachable t db -> titles_valid db -> str_le t now ->
  NoteCreate_valid payload = true ->
  exists created db' before,
    create_note payload now db = (Ok created, db')
    /\ list_notes db = (Ok before, db)
    /\ list_notes db' = (Ok (created :: before), db').
Proof.
  intros Hr Hv Hle Hp. apply reachable_stamps_ordered in Hr.
  pose proof (titles_valid_create payload now db Hp Hv) as Hv'.
  unfold NoteCreate_valid in Hp. apply andb_true_iff in Hp as [Ht _].
  rewrite create_note_run in *. rewrite (new_NoteRead_ok _ _ _ _ _ Ht).
  cbn [snd] in Hv'.
  eexists _, _, _. split; [reflexivity|].
  split; [exact (list_notes_run _ Hv)|].
  pose proof (next_rowid_fresh db) as Hfresh.
  apply listing_determined; [done| |].
  - constructor; [apply listing_sorted|].
    apply Forall_forall. intros n Hn.
    apply (listing_elem _ _ Hv), get_note_Some in Hn as (c & Hc & _ & ->).
    destruct (Hr _ _ Hc) as [_ Hut].
    pose proof (max_rowid_ge _ _ _ Hc) as Hmax.
    unfold listed_before. cbn.
    destruct (str_le_cases _ _ (str_le_trans _ _ _ Hut Hle)) as [?| ->];
      [by left | right].
    split; [done|]. unfold next_rowid. lia.
  - intros n. rewrite elem_of_cons, (listing_elem _ _ Hv), !get_note_Some.
    cbn [notes]. split.
    + intros [-> | (c & Hc & Hok & Hn)].
      * eexists. cbn [id]. rewrite lookup_insert_eq. by split.
      * exists c. rewrite lookup_insert_ne by congruence. by split.
    + intros (c & Hc & Hok & Hn).
      destruct (decide (id n = next_rowid db)) as [E|E].
      * rewrite E, lookup_insert_eq in Hc. injection Hc as <-.
        left. rewrite Hn, E. done.
      * rewrite lookup_insert_ne in Hc by congruence. right. by exists c.
Qed.

Lemma create_note_listed_first_witness :
  reachable T0 db1 /\ titles_valid db1 /\ str_le T0 T1
  /\ NoteCreate_valid (mkNoteCreate "D" "") = true
  /\ exists created db' before,
       create_note (mkNoteCreate "D" "") T1 db1 = (Ok created, db')
       /\ list_notes db1 = (Ok before, db1)
       /\ list_notes db' = (Ok (created :: before), db').
Proof.
  assert (Hv : titles_valid db1).
  { apply (bool_decide_unpack _). vm_compute. exact I. }
  split; [exact reachable_db1|]. split; [exact Hv|].
  split; [reflexivity|]. split; [reflexivity|].
  apply (create_note_listed_first T0 T1 (mkNoteCreate "D" "") db1
           reachable_db1 Hv); reflexivity.
Defined.

(** X12: when the clock has moved on since the last write, a note just
    updated comes first in the listing, and the other notes keep their
    order behind it. *)
Theorem update_note_listed_first (t now : string) (note_id : Z)
    (payload : NoteUpdate) (db : Database) (existing : NoteRead) :
  reachable t db -> titles_valid db -> String.ltb t now = true ->
  fst (get_note note_id db) = Ok (Some existing) ->
  NoteUpdate_valid payload = true ->
  exists updated db' before,
    update_note note_id payload now db = (Ok (Some updated), db')
    /\ list_notes db = (Ok before, db)
    /\ list_notes db'
       = (Ok (updated :: filter (fun n => id n <> note_id) before), db').
Proof.
  intros Hr Hv Hlt Hget Hp. apply reachable_stamps_ordered in Hr.
  pose proof (titles_valid_update note_id payload now db Hp Hv) as Hv'.
  apply get_note_Some in Hget as (c & Hc & Hok & ->).
  rewrite (update_note_run _ payload now _ _ Hc Hok) in *.
  assert (Hnt : title_ok (match nu_title payload with
                          | Some t => t | None => col_title c end) = true).
  { unfold NoteUpdate_valid in Hp. apply andb_true_iff in Hp as [Ht _].
    by destruct (nu_title payload). }
  rewrite (new_NoteRead_ok _ _ _ _ _ Hnt). cbn [snd] in Hv'.
  eexists _, _, _. split; [reflexivity|].
  split; [exact (list_notes_run _ Hv)|].
  apply listing_determined; [done| |].
  - constructor; [apply StronglySorted_filter, listing_sorted|].
    apply Forall_forall. intros n Hn.
    apply list_elem_of_filter in Hn as [_ Hn].
    apply (listing_elem _ _ Hv), get_note_Some in Hn as (c0 & Hc0 & _ & ->).
    destruct (Hr _ _ Hc0) as [_ Hut].
    left. cbn. by apply (str_le_lt_trans _ t).
  - intros n.
    rewrite elem_of_cons, list_elem_of_filter, (listing_elem _ _ Hv),
      !get_note_Some.
    cbn [notes]. split.
    + intros [-> | (Hne & c0 & Hc0 & Hok0 & Hn)].
      * eexists. cbn [id]. rewrite lookup_insert_eq. by split.
      * exists c0. rewrite lookup_insert_ne by congruence. by split.
    + intros (c0 & Hc0 & Hok0 & Hn).
      destruct (decide (id n = note_id)) as [E|E].
      * rewrite E, lookup_insert_eq in Hc0. injection Hc0 as <-.
        left. rewrite Hn, E. done.
      * rewrite lookup_insert_ne in Hc0 by congruence.
        right. split; [done|]. by exists c0.
Qed.

Lemma reachable_db_three : reachable T1 db_three.
Proof.
  unfold db_three.
  apply (reach_create T0); [|reflexivity].
  apply (reach_create T0); [exact reachable_db1 | reflexivity].
Defined.

Lemma update_note_listed_first_witness :
  reachable T1 db_three /\ titles_valid db_three
  /\ String.ltb T1 "2024-05-01T10:00:09+00:00" = true
  /\ fst (get_note 1 db_three) = Ok (Some (mkNoteRead 1 "A" "x" T0 T0))
  /\ NoteUpdate_valid (mkNoteUpdate None (Some "y")) = true
  /\ exists updated db' before,
       update_note 1 (mkNoteUpdate None (Some "y"))
         "2024-05-01T10:00:09+00:00" db_three
       = (Ok (Some updated), db')
       /\ list_notes db_three = (Ok before, db_three)
       /\ list_notes db'
          = (Ok (updated :: filter (fun n => id n <> 1) before), db').
Proof.
  split; [exact reachable_db_three|]. split; [exact titles_valid_db_three|].
  split; [reflexivity|]. split; [vm_compute; reflexivity|].
  split; [reflexivity|].
  apply (update_note_listed_first T1 "2024-05-01T10:00:09+00:00" 1
           (mkNoteUpdate None (Some "y")) db_three
           (mkNoteRead 1 "A" "x" T0 T0)
           reachable_db_three titles_valid_db_three).
  - reflexivity.
  - vm_compute. reflexivity.
  - reflexivity.
Defined.

(** X13: a create followed by a delete of the created id leaves the rows of
    the table as they were before the create, but the id stays used up. *)
Theorem create_then_delete (payload : NoteCreate) (now : string) (db : Database) :
  NoteCreate_valid payload = true ->
  exists created db' db'',
    create_note payload now db = (Ok created, db')
    /\ delete_note (id created) db' = (Ok true, db'')
    /\ notes db'' = notes db
    /\ sqlite_sequence db'' = id created
    /\ sqlite_sequence db < sqlite_sequence db''.
Proof.
  intros Hp. unfold NoteCreate_valid in Hp.
  apply andb_true_iff in Hp as [Ht _].
  rewrite create_note_run, (new_NoteRead_ok _ _ _ _ _ Ht).
  eexists _, _, _. split; [reflexivity|].
  rewrite delete_note_run. cbn [notes sqlite_sequence id].
  rewrite (fits_integer_stored _ _ _ (lookup_insert_eq _ _ _)).
  rewrite lookup_insert_eq.
  rewrite bool_decide_eq_true_2 by (by eexists).
  split; [reflexivity|]. cbn [notes sqlite_sequence].
  split; [|split; [done|]].
  - rewrite delete_insert_eq. apply delete_id, next_rowid_fresh.
  - unfold next_rowid. lia.
Qed.

Lemma create_then_delete_witness :
  NoteCreate_valid (mkNoteCreate "D" "") = true
  /\ exists created db' db'',
       create_note (mkNoteCreate "D" "") T1 db_three = (Ok created, db')
       /\ delete_note (id created) db' = (Ok true, db'')
       /\ notes db'' = notes db_three
       /\ sqlite_sequence db'' = id created
       /\ sqlite_sequence db_three < sqlite_sequence db''.
Proof.
  split; [reflexivity|].
  apply (create_then_delete (mkNoteCreate "D" "") T1 db_three). reflexivity.
Defined.

(** ** The router *)

Lemma get_note_readable (note_id : Z) (c : Cols) (db : Database) :
  titles_valid db -> notes db !! note_id = Some c ->
  get_note note_id db = (Ok (Some (note_of_row (note_id, c))), db).
Proof.
  intros Hv Hc. rewrite get_note_run, Hc.
  by rewrite (new_NoteRead_ok _ _ _ _ _ (Hv _ _ Hc)).
Qed.

Lemma get_note_absent (note_id : Z) (db : Database) :
  notes db !! note_id = None ->
  get_note note_id db =
  (if int64_ok note_id then Ok None else Raise OverflowError, db).
Proof. intros Hc. by rewrite get_note_run, Hc. Qed.

Lemma update_note_readable (note_id : Z) (payload : NoteUpdate) (now : string)
    (c : Cols) (db : Database) :
  titles_valid db -> NoteUpdate_valid payload = true ->
  notes db !! note_id = Some c ->
  exists n, update_note note_id payload now db
            = (Ok (Some n), snd (update_note note_id payload now db)).
Proof.
  intros Hv Hp Hc. pose proof (Hv _ _ Hc) as Hok. cbn beta in Hok.
  rewrite (update_note_run _ payload now _ _ Hc Hok).
  rewrite new_NoteRead_ok; [by eexists|].
  unfold NoteUpdate_valid in Hp. apply andb_true_iff in Hp as [Ht _].
  by destruct (nu_title payload).
Qed.

(** X14: on a store whose titles are valid, every request whose id is a
    signed 64-bit number is answered: no handler raises, the store it leaves
    has valid titles again, and the status is one of those of its route: 200
    for the listing, 201 or 422 for a create, 200 or 404 for a read, 200, 404
    or 422 for an update, 204 or 404 for a delete. *)
Theorem handle_answers (rq : Request) (now : string) (db : Database) :
  titles_valid db ->
  request_id_ok rq = true ->
  exists resp db',
    handle rq now db = (Ok resp, db')
    /\ titles_valid db'
    /\ match rq with
       | GET_notes => status_code resp = 200
       | POST_notes _ => status_code resp = 201 \/ status_code resp = 422
       | GET_note _ => status_code resp = 200 \/ status_code resp = 404
       | PUT_note _ _ =>
           status_code resp = 200 \/ status_code resp = 404
           \/ status_code resp = 422
       | DELETE_note _ => status_code resp = 204 \/ status_code resp = 404
       end.
Proof.
  intros Hv Hid. destruct rq as [|raw|i|i raw|i]; cbn [handle];
    cbn [request_id_ok] in Hid.
  - unfold list_notes_route, bind. rewrite (list_notes_run _ Hv).
    eexists _, _. by split.
  - unfold create_note_route.
    destruct (parse_NoteCreate raw) as [p|e] eqn:E.
    + apply parse_NoteCreate_valid in E.
      pose proof (titles_valid_create p now db E Hv) as Hv'.
      unfold NoteCreate_valid in E. apply andb_true_iff in E as [Ht _].
      unfold bind. rewrite create_note_run in *.
      rewrite (new_NoteRead_ok _ _ _ _ _ Ht).
      eexists _, _. split; [reflexivity|]. split; [exact Hv' | by left].
    + eexists _, _. split; [reflexivity|]. split; [done | by right].
  - unfold get_note_route, bind.
    destruct (notes db !! i) as [c|] eqn:Hc.
    + rewrite (get_note_readable _ _ _ Hv Hc).
      eexists _, _. split; [reflexivity|]. split; [done | by left].
    + rewrite (get_note_absent _ _ Hc), Hid.
      eexists _, _. split; [reflexivity|]. split; [done | by right].
  - unfold update_note_route.
    destruct (parse_NoteUpdate raw) as [p|e] eqn:E.
    + apply parse_NoteUpdate_valid in E.
      pose proof (titles_valid_update i p now db E Hv) as Hv'.
      unfold bind. destruct (notes db !! i) as [c|] eqn:Hc.
      * destruct (update_note_readable i p now c db Hv E Hc) as [n ->].
        eexists _, _. split; [reflexivity|]. split; [exact Hv' | by left].
      * rewrite (update_note_absent _ _ _ _ Hc), Hid.
        eexists _, _. split; [reflexivity|]. split; [done | by right; left].
    + eexists _, _. split; [reflexivity|]. split; [done | by right; right].
  - unfold delete_note_route, bind.
    pose proof (titles_valid_delete i db Hv) as Hv'.
    rewrite delete_note_run in *. cbn [snd] in Hv'.
    rewrite (fits_integer_int64 _ _ Hid).
    destruct (notes db !! i) as [c|] eqn:Hc; cbn.
    + eexists _, _. split; [reflexivity|]. split; [exact Hv' | by left].
    + eexists _, _. split; [reflexivity|]. split; [exact Hv' | by right].
Qed.

Lemma handle_answers_witness :
  titles_valid db_three
  /\ request_id_ok (PUT_note 2 (mkRawBody None (Some ""))) = true
  /\ exists resp db',
       handle (PUT_note 2 (mkRawBody None (Some ""))) T1 db_three = (Ok resp, db')
       /\ titles_valid db'
       /\ (status_code resp = 200 \/ status_code resp = 404
           \/ status_code resp = 422).
Proof.
  split; [exact titles_valid_db_three|]. split; [reflexivity|].
  apply (handle_answers (PUT_note 2 (mkRawBody None (Some ""))) T1 db_three
           titles_valid_db_three).
  reflexivity.
Defined.

(** X15: the three routes on one note answer 404 "Note not found" exactly
    when the id is a signed 64-bit number that no row has. For an id that no
    row has and that does not fit in 64 bits the handler raises
    [OverflowError] instead. Either way the store is left as it is. *)
Theorem item_routes_not_found (note_id : Z) (raw : RawBody) (now : string)
    (db : Database) :
  titles_valid db ->
  is_ok (parse_NoteUpdate raw) = true ->
  (fst (get_note_route note_id db) = Ok not_found
   <-> notes db !! note_id = None /\ int64_ok note_id = true)
  /\ (fst (update_note_route note_id raw now db) = Ok not_found
      <-> notes db !! note_id = None /\ int64_ok note_id = true)
  /\ (fst (delete_note_route note_id db) = Ok not_found
      <-> notes db !! note_id = None /\ int64_ok note_id = true)
  /\ (notes db !! note_id = None -> int64_ok note_id = false ->
      fst (get_note_route note_id db) = Raise OverflowError
      /\ fst (update_note_route note_id raw now db) = Raise OverflowError
      /\ fst (delete_note_route note_id db) = Raise OverflowError)
  /\ (notes db !! note_id = None ->
      snd (get_note_route note_id db) = db
      /\ snd (update_note_route note_id raw now db) = db
      /\ snd (delete_note_route note_id db) = db).
Proof.
  intros Hv Hraw.
  unfold get_note_route, update_note_route, delete_note_route.
  destruct (parse_NoteUpdate raw) as [p|e] eqn:E; [|done].
  apply parse_NoteUpdate_valid in E. unfold bind.
  rewrite delete_note_run.
  destruct (notes db !! note_id) as [c|] eqn:Hc.
  - rewrite (get_note_readable _ _ _ Hv Hc), (fits_integer_stored _ _ _ Hc).
    destruct (update_note_readable note_id p now c db Hv E Hc) as [n ->].
    cbn. repeat split; (done || by intros [? ?]).
  - rewrite (get_note_absent _ _ Hc), (update_note_absent _ _ _ _ Hc),
      (fits_integer_absent _ _ Hc).
    rewrite delete_id by done.
    destruct (int64_ok note_id), db; cbn;
      repeat split; (done || by intros [? ?]).
Qed.

Lemma item_routes_not_found_witness :
  titles_valid db_three
  /\ is_ok (parse_NoteUpdate (mkRawBody (Some "B") None)) = true
  /\ (fst (get_note_route 7 db_three) = Ok not_found
      <-> notes db_three !! 7 = None /\ int64_ok 7 = true)
  /\ (fst (update_note_route 7 (mkRawBody (Some "B") None) T1 db_three)
      = Ok not_found <-> notes db_three !! 7 = None /\ int64_ok 7 = true)
  /\ (fst (delete_note_route 7 db_three) = Ok not_found
      <-> notes db_three !! 7 = None /\ int64_ok 7 = true)
  /\ (notes db_three !! 7 = None -> int64_ok 7 = false ->
      fst (get_note_route 7 db_three) = Raise OverflowError
      /\ fst (update_note_route 7 (mkRawBody (Some "B") None) T1 db_three)
         = Raise OverflowError
      /\ fst (delete_note_route 7 db_three) = Raise OverflowError)
  /\ (notes db_three !! 7 = None ->
      snd (get_note_route 7 db_three) = db_three
      /\ snd (update_note_route 7 (mkRawBody (Some "B") None) T1 db_three)
         = db_three
      /\ snd (delete_note_route 7 db_three) = db_three).
Proof.
  split; [exact titles_valid_db_three|]. split; [reflexivity|].
  apply (item_routes_not_found 7 (mkRawBody (Some "B") None) T1 db_three
           titles_valid_db_three).
  reflexivity.
Defined.

(** X16: an update body parses exactly when its title is absent or 1 to 200
    characters long; the content never makes it fail and may be empty; the
    payload carries the two fields as sent; and a body that does not parse
    is answered with 422 and the store stays as it was. *)
Theorem update_payload_accepted (raw : RawBody) :
  (is_ok (parse_NoteUpdate raw) = true <->
   match raw_title raw with
   | None => True
   | Some t => (1 <= String.length t <= 200)%nat
   end)
  /\ (forall p, parse_NoteUpdate raw = Ok p ->
        nu_title p = raw_title raw /\ nu_content p = raw_content raw)
  /\ (is_ok (parse_NoteUpdate raw) = false ->
      forall note_id now db,
        update_note_route note_id raw now db = (Ok unprocessable, db)).
Proof.
  unfold update_note_route, parse_NoteUpdate, NoteUpdate_valid.
  cbn [nu_title nu_content].
  assert (Hc : match raw_content raw with
               | Some c => content_ok c | None => true end = true).
  { by destruct (raw_content raw). }
  rewrite Hc, andb_true_r.
  split; [|split].
  - destruct (raw_title raw) as [t|]; [|done]. unfold title_ok.
    destruct (Nat.leb_spec 1 (String.length t)) as [H1|H1];
      destruct (Nat.leb_spec (String.length t) 200) as [H2|H2]; simpl;
      (split; [intros ?; try done; lia | intros ?; try done; lia]).
  - destruct (match raw_title raw with Some t => title_ok t | None => true end);
      [|done].
    by intros p [= <-].
  - destruct (match raw_title raw with Some t => title_ok t | None => true end);
      done.
Qed.

Lemma update_payload_accepted_witness :
  is_ok (parse_NoteUpdate (mkRawBody (Some "") (Some "y"))) = false
  /\ update_note_route 1 (mkRawBody (Some "") (Some "y")) T1 db1
     = (Ok unprocessable, db1).
Proof.
  split; [reflexivity|].
  apply (update_payload_accepted (mkRawBody (Some "") (Some "y"))).
  reflexivity.
Defined.
